(** * CPU affinity backends of [core_affinity.c]

    The C file holds four mutually exclusive backends chosen by the
    preprocessor ([_WIN32], [__linux__], [__APPLE__], otherwise).  Each backend
    defines [moonbit_get_affinity_mask] and [moonbit_set_affinity_mask].

    The backends are embedded as finite programs that issue system calls: a
    program is a tree whose inner nodes are the calls the C code makes, in the
    order it makes them, and whose children are indexed by what the operating
    system answers.  Running a program against an operating system (a function
    from requests and kernel states to answers and kernel states) yields the
    returned value, the final kernel state and the list of requests issued. *)

From Stdlib Require Import ZArith List String Bool Lia.
Import ListNotations.

Local Open Scope Z_scope.

(** ** Fixed-width arithmetic *)

(** [uint64_t]: values are integers in [0, 2^64). *)
Definition UINT64_MAX : Z := 18446744073709551615.

Definition is_uint64 (x : Z) : Prop := 0 <= x <= UINT64_MAX.

(** Conversion to [uint64_t] (reduction modulo 2^64). *)
Definition to_uint64 (x : Z) : Z := Z.land x UINT64_MAX.

(** [(mask >> i) & 1], used as a C truth value. *)
Definition bit_is_set (mask i : Z) : bool :=
  negb (Z.land (Z.shiftr mask i) 1 =? 0).

(** [1ULL << i] for a shift count the caller keeps in [0, 64). *)
Definition shl1_u64 (i : Z) : Z := to_uint64 (Z.shiftl 1 i).

(** Every [for (int i = 0; i < 64; i++)] loop evaluates its guard at most 65
    times; the loops below carry that budget. *)
Definition LOOP_BUDGET : nat := 65.

(** ** Programs over system calls *)

Section Program.
Context {Req : Type} {Resp : Req -> Type}.

(** [Undef] is an execution without a defined result: behaviour that C
    leaves undefined, or a loop that ran out of its iteration budget. *)
Inductive prog (A : Type) : Type :=
| Ret (a : A)
| Call (r : Req) (k : Resp r -> prog A)
| Undef.

Arguments Ret {A} a.
Arguments Call {A} r k.
Arguments Undef {A}.

Fixpoint bind {A B : Type} (p : prog A) (f : A -> prog B) : prog B :=
  match p with
  | Ret a => f a
  | Call r k => Call r (fun x => bind (k x) f)
  | Undef => Undef
  end.

Definition call (r : Req) : prog (Resp r) := Call r Ret.

(** [x << n] on [uint64_t]; C defines it only for [0 <= n < 64]. *)
Definition shl_u64 (x n : Z) : prog Z :=
  if (0 <=? n) && (n <? 64) then Ret (to_uint64 (Z.shiftl x n)) else Undef.

(** What one execution leaves behind. *)
Record outcome (A W : Type) : Type := Outcome {
  value : A;
  final : W;
  trace : list Req
}.

Arguments Outcome {A W} value final trace.

Section Exec.
Context {W : Type} (os : forall r : Req, W -> Resp r * W).

Fixpoint exec {A : Type} (p : prog A) (w : W) : option (outcome A W) :=
  match p with
  | Ret a => Some (Outcome a w [])
  | Undef => None
  | Call r k =>
      let (x, w') := os r w in
      match exec (k x) w' with
      | Some o => Some (Outcome (value _ _ o) (final _ _ o) (r :: trace _ _ o))
      | None => None
      end
  end.
End Exec.
End Program.

Arguments prog : clear implicits.
Arguments Ret {Req Resp A} a.
Arguments Call {Req Resp A} r k.
Arguments Undef {Req Resp A}.
Arguments shl_u64 {Req Resp} x n.
Arguments outcome : clear implicits.
Arguments Outcome {Req A W} value final trace.
Arguments value {Req A W} o.
Arguments final {Req A W} o.
Arguments trace {Req A W} o.

Declare Scope prog_scope.
Delimit Scope prog_scope with prog.
Notation "x <- c ;; k" := (bind c (fun x => k))
  (at level 61, c at next level, right associativity) : prog_scope.
Notation "' pat <- c ;; k" := (bind c (fun x => match x with pat => k end))
  (at level 61, pat pattern, c at next level, right associativity) : prog_scope.

(** Two calls in direct succession; both results are kept. *)
Definition both {Req : Type} {Resp : Req -> Type} {A B : Type}
  (p : prog Req Resp A) (q : prog Req Resp B) : prog Req Resp (A * B) :=
  (a <- p ;; b <- q ;; Ret (a, b))%prog.

(** Inclusion of the CPU sets two masks denote. *)
Definition mask_subset (a b : Z) : Prop := Z.land a b = a.

(** ** Backend for targets that are neither Windows, Linux nor macOS *)

Module Fallback.

(** The backend makes no system call. *)
Definition request : Type := Empty_set.
Definition response (r : request) : Type := match r with end.

Definition moonbit_get_affinity_mask : prog request response Z := Ret 0.

Definition moonbit_set_affinity_mask (mask : Z) : prog request response bool :=
  Ret false.

End Fallback.

(** ** macOS backend *)

Module Darwin.

(** Constants of [<mach/thread_policy.h>] and [<mach/kern_return.h>]. *)
Definition THREAD_AFFINITY_POLICY : Z := 4.
Definition THREAD_AFFINITY_POLICY_COUNT : Z := 1.
Definition KERN_SUCCESS : Z := 0.
Definition KERN_INVALID_ARGUMENT : Z := 4.
Definition KERN_NOT_SUPPORTED : Z := 46.

Definition sizeof_int : Z := 4.

(** The library and kernel entry points the backend uses.
    [thread_policy_set thread flavor policy_info count] carries the policy
    words the pointer argument designates. *)
Inductive request : Type :=
| sysctlbyname (name : string) (oldlen : Z)
| pthread_self
| pthread_mach_thread_np (thread : Z)
| thread_policy_set (thread flavor : Z) (policy_info : list Z) (count : Z).

(** [sysctlbyname] answers with its return code and the [int] found in the
    caller's buffer afterwards; the others answer with one word. *)
Definition response (r : request) : Type :=
  match r with
  | sysctlbyname _ _ => (Z * Z)%type
  | pthread_self => Z
  | pthread_mach_thread_np _ => Z
  | thread_policy_set _ _ _ _ => Z
  end.

Definition M : Type -> Type := prog request response.

Local Open Scope prog_scope.

Definition moonbit_get_affinity_mask : M Z :=
  '(rc, count) <- call (sysctlbyname "hw.logicalcpu" sizeof_int) ;;
  if rc =? 0 then
    if count >=? 64 then Ret 0xFFFFFFFFFFFFFFFF
    else (x <- shl_u64 1 count ;; Ret (to_uint64 (x - 1)))
  else Ret 0.

(** The loop of [moonbit_set_affinity_mask], entered with counter [i]. *)
Fixpoint first_core_loop (budget : nat) (i mask : Z) : M bool :=
  match budget with
  | O => Undef
  | S budget' =>
      if i <? 64 then
        if bit_is_set mask i then
          self <- call pthread_self ;;
          mach_thread <- call (pthread_mach_thread_np self) ;;
          result <- call (thread_policy_set mach_thread THREAD_AFFINITY_POLICY
                                            [i] THREAD_AFFINITY_POLICY_COUNT) ;;
          Ret true
        else first_core_loop budget' (i + 1) mask
      else Ret false
  end.

Definition moonbit_set_affinity_mask (mask : Z) : M bool :=
  '(rc, is_arm64) <- call (sysctlbyname "hw.optional.arm64" sizeof_int) ;;
  if (rc =? 0) && negb (is_arm64 =? 0) then Ret true
  else first_core_loop LOOP_BUDGET 0 mask.

(** An operating system, as far as this backend can observe it. *)
Definition os (W : Type) : Type := forall r : request, W -> response r * W.

(** Whether the system, in state [w], reports an ARM64 processor: the
    [hw.optional.arm64] query succeeds and leaves a nonzero value. *)
Definition reports_arm64 {W : Type} (sys : os W) (w : W) : bool :=
  let '(rc, v) := fst (sys (sysctlbyname "hw.optional.arm64" sizeof_int) w) in
  (rc =? 0) && negb (v =? 0).

(** *** A reference kernel

    The kernel is not part of the C file.  This one answers the calls above
    as XNU documents them: [sysctlbyname] knows [hw.logicalcpu] and, unless
    [hw_optional_arm64] is [None] (Intel machines on older releases),
    [hw.optional.arm64]; [thread_policy_set] with the affinity policy stores
    the tag on an Intel machine and is not supported on ARM64.  The affinity
    tag of the calling thread is the only scheduling state. *)
Record kernel : Type := Kernel {
  hw_logicalcpu : Z;
  hw_optional_arm64 : option Z;
  affinity_tag : Z
}.

Definition self_pthread : Z := 1.
Definition self_port : Z := 259.

Definition arm64 (k : kernel) : bool :=
  match hw_optional_arm64 k with
  | Some v => negb (v =? 0)
  | None => false
  end.

Definition kernel_step (r : request) (k : kernel) : response r * kernel :=
  match r as r0 return response r0 * kernel with
  | sysctlbyname name oldlen =>
      if String.eqb name "hw.logicalcpu" then ((0, hw_logicalcpu k), k)
      else if String.eqb name "hw.optional.arm64" then
        match hw_optional_arm64 k with
        | Some v => ((0, v), k)
        | None => ((-1, 0), k)
        end
      else ((-1, 0), k)
  | pthread_self => (self_pthread, k)
  | pthread_mach_thread_np t => (if t =? self_pthread then self_port else 0, k)
  | thread_policy_set thread flavor policy_info count =>
      if arm64 k then (KERN_NOT_SUPPORTED, k)
      else if (thread =? self_port) && (flavor =? THREAD_AFFINITY_POLICY)
              && (count =? THREAD_AFFINITY_POLICY_COUNT) then
        match policy_info with
        | [tag] => (KERN_SUCCESS,
                    Kernel (hw_logicalcpu k) (hw_optional_arm64 k) tag)
        | _ => (KERN_INVALID_ARGUMENT, k)
        end
      else (KERN_INVALID_ARGUMENT, k)
  end.

End Darwin.

(** ** Linux backend *)

Module Linux.

(** [cpu_set_t] is a bit array; it is held as the integer whose bit [i] is
    the membership of CPU [i]. *)
Definition cpu_set_t : Type := Z.

Inductive request : Type :=
| sched_getaffinity (pid cpusetsize : Z)
| sched_setaffinity (pid cpusetsize : Z) (mask : cpu_set_t).

(** [sched_getaffinity] answers with its return code and the set it stored;
    [sched_setaffinity] with its return code. *)
Definition response (r : request) : Type :=
  match r with
  | sched_getaffinity _ _ => (Z * cpu_set_t)%type
  | sched_setaffinity _ _ _ => Z
  end.

Definition M : Type -> Type := prog request response.

Definition os (W : Type) : Type := forall r : request, W -> response r * W.

Local Open Scope prog_scope.

Section Backend.
(** The number of CPUs a [cpu_set_t] can name, from [<sched.h>]. *)
Variable CPU_SETSIZE : Z.

Definition sizeof_cpu_set_t : Z := CPU_SETSIZE / 8.

(** The macros of [<sched.h>]; an index outside the set is ignored. *)
Definition CPU_ZERO : cpu_set_t := 0.

Definition CPU_SET (cpu : Z) (set : cpu_set_t) : cpu_set_t :=
  if (0 <=? cpu) && (cpu <? CPU_SETSIZE) then Z.lor set (Z.shiftl 1 cpu)
  else set.

Definition CPU_ISSET (cpu : Z) (set : cpu_set_t) : bool :=
  (0 <=? cpu) && (cpu <? CPU_SETSIZE) && Z.testbit set cpu.

(** The loop of [moonbit_get_affinity_mask], entered with counter [i]. *)
Fixpoint get_loop (budget : nat) (i : Z) (mask : cpu_set_t) (result : Z)
  : M Z :=
  match budget with
  | O => Undef
  | S budget' =>
      if (i <? 64) && (i <? CPU_SETSIZE) then
        get_loop budget' (i + 1) mask
                 (if CPU_ISSET i mask then Z.lor result (shl1_u64 i)
                  else result)
      else Ret result
  end.

Definition moonbit_get_affinity_mask : M Z :=
  '(rc, mask) <- call (sched_getaffinity 0 sizeof_cpu_set_t) ;;
  if rc =? 0 then get_loop LOOP_BUDGET 0 mask 0
  else Ret 0.

(** The loop of [moonbit_set_affinity_mask], entered with counter [i]. *)
Fixpoint set_loop (budget : nat) (i mask_val : Z) (mask : cpu_set_t)
  : M cpu_set_t :=
  match budget with
  | O => Undef
  | S budget' =>
      if i <? 64 then
        set_loop budget' (i + 1) mask_val
                 (if bit_is_set mask_val i then CPU_SET i mask else mask)
      else Ret mask
  end.

Definition moonbit_set_affinity_mask (mask_val : Z) : M bool :=
  mask <- set_loop LOOP_BUDGET 0 mask_val CPU_ZERO ;;
  rc <- call (sched_setaffinity 0 sizeof_cpu_set_t mask) ;;
  Ret (rc =? 0).
End Backend.

(** *** A reference kernel

    The kernel is not part of the C file.  This one answers the two calls as
    sched_setaffinity(2) documents them for the calling thread.

    The machine has CPUs [0 .. ncpus - 1].  [cpus_allowed] holds the CPUs the
    calling thread may be given (present and permitted to it);
    [cpus_mask] is its current affinity.  Only the calling thread
    ([pid = 0]) is modelled.

    [sched_setaffinity] intersects the requested set with [cpus_allowed],
    fails ([EINVAL]) when nothing is left and installs the intersection
    otherwise.  [sched_getaffinity] fails ([EINVAL]) when the buffer is
    shorter than the kernel's CPU mask and stores the current affinity
    otherwise. *)
Record kernel : Type := Kernel {
  ncpus : Z;
  cpus_allowed : cpu_set_t;
  cpus_mask : cpu_set_t
}.

Definition well_formed (k : kernel) : Prop :=
  0 <= ncpus k /\ 0 <= cpus_allowed k < 2 ^ ncpus k.

Definition kernel_step (r : request) (k : kernel) : response r * kernel :=
  match r as r0 return response r0 * kernel with
  | sched_getaffinity pid cpusetsize =>
      if (pid =? 0) && (ncpus k <=? 8 * cpusetsize) then ((0, cpus_mask k), k)
      else ((-1, 0), k)
  | sched_setaffinity pid cpusetsize mask =>
      if pid =? 0 then
        let new_mask := Z.land mask (cpus_allowed k) in
        if new_mask =? 0 then (-1, k)
        else (0, Kernel (ncpus k) (cpus_allowed k) new_mask)
      else (-1, k)
  end.

End Linux.

(** ** Windows backend *)

Module Win32.

Inductive request : Type :=
| GetCurrentProcess
| GetProcessAffinityMask (hProcess : Z)
| GetCurrentThread
| SetThreadAffinityMask (hThread dwThreadAffinityMask : Z).

(** [GetProcessAffinityMask] answers with its [BOOL] and the two masks it
    stored (process, system); the others answer with one word. *)
Definition response (r : request) : Type :=
  match r with
  | GetCurrentProcess => Z
  | GetProcessAffinityMask _ => (Z * Z * Z)%type
  | GetCurrentThread => Z
  | SetThreadAffinityMask _ _ => Z
  end.

Definition M : Type -> Type := prog request response.

Definition os (W : Type) : Type := forall r : request, W -> response r * W.

Local Open Scope prog_scope.

Section Backend.
(** The width of [DWORD_PTR] (32 or 64), from [<windows.h>]. *)
Variable DWORD_PTR_BITS : Z.

(** Conversion to [DWORD_PTR]. *)
Definition to_DWORD_PTR (x : Z) : Z := Z.land x (Z.ones DWORD_PTR_BITS).

Definition moonbit_get_affinity_mask : M Z :=
  h <- call GetCurrentProcess ;;
  '(ok, process_affinity_mask, system_affinity_mask) <-
    call (GetProcessAffinityMask h) ;;
  if negb (ok =? 0) then Ret (to_uint64 process_affinity_mask)
  else Ret 0.

Definition moonbit_set_affinity_mask (mask : Z) : M bool :=
  h <- call GetCurrentThread ;;
  previous <- call (SetThreadAffinityMask h (to_DWORD_PTR mask)) ;;
  Ret (negb (previous =? 0)).
End Backend.

(** *** A reference kernel

    The kernel is not part of the C file.  This one answers the four calls as
    the Windows API documents them.

    [process_mask] is the affinity of the process, [thread_mask] that of the
    calling thread.  [GetCurrentProcess] and [GetCurrentThread] return the
    pseudo handles -1 and -2.  [SetThreadAffinityMask] accepts a nonzero
    mask that lies within the process mask, installs it and returns the
    previous thread mask; it returns 0 otherwise.
    [GetProcessAffinityMask] reports the process and system masks. *)
Record kernel : Type := Kernel {
  system_mask : Z;
  process_mask : Z;
  thread_mask : Z
}.

Definition current_process : Z := -1.
Definition current_thread : Z := -2.

Definition well_formed (k : kernel) : Prop := thread_mask k <> 0.

Definition kernel_step (r : request) (k : kernel) : response r * kernel :=
  match r as r0 return response r0 * kernel with
  | GetCurrentProcess => (current_process, k)
  | GetProcessAffinityMask h =>
      if h =? current_process then ((1, process_mask k, system_mask k), k)
      else ((0, 0, 0), k)
  | GetCurrentThread => (current_thread, k)
  | SetThreadAffinityMask h m =>
      if (h =? current_thread) && negb (m =? 0)
         && (Z.land m (process_mask k) =? m) then
        (thread_mask k, Kernel (system_mask k) (process_mask k) m)
      else (0, k)
  end.

End Win32.

(** * Properties *)

(** ** Executions *)

Lemma exec_bind {Req : Type} {Resp : Req -> Type} {W A B : Type}
  (os : forall r : Req, W -> Resp r * W)
  (p : prog Req Resp A) (f : A -> prog Req Resp B) (w : W) :
  exec os (bind p f) w =
  match exec os p w with
  | Some o =>
      match exec os (f (value o)) (final o) with
      | Some o' => Some (Outcome (value o') (final o') (trace o ++ trace o'))
      | None => None
      end
  | None => None
  end.
Proof.
  revert w; induction p as [a | r k IH | ]; intros w; simpl.
  - destruct (exec os (f a) w) as [[v w' t] | ]; reflexivity.
  - destruct (os r w) as [x w'].
    rewrite IH.
    destruct (exec os (k x) w') as [[v1 w1 t1] | ]; simpl; [ | reflexivity ].
    destruct (exec os (f v1) w1) as [[v2 w2 t2] | ]; reflexivity.
  - reflexivity.
Qed.

Lemma exec_both {Req : Type} {Resp : Req -> Type} {W A B : Type}
  (os : forall r : Req, W -> Resp r * W)
  (p : prog Req Resp A) (q : prog Req Resp B) (w : W) (o1 : outcome Req A W)
  (o2 : outcome Req B W) :
  exec os p w = Some o1 ->
  exec os q (final o1) = Some o2 ->
  exec os (both p q) w =
  Some (Outcome (value o1, value o2) (final o2) (trace o1 ++ trace o2)).
Proof.
  intros H1 H2. unfold both.
  rewrite exec_bind, H1, exec_bind, H2. simpl.
  now rewrite app_nil_r.
Qed.

(** ** Bits *)

Lemma UINT64_MAX_ones : UINT64_MAX = Z.ones 64.
Proof. reflexivity. Qed.

Lemma bit_is_set_testbit (mask i : Z) :
  0 <= i -> bit_is_set mask i = Z.testbit mask i.
Proof.
  intros Hi. unfold bit_is_set.
  change 1 with (Z.ones 1) at 1.
  rewrite Z.land_ones by lia.
  rewrite Z.testbit_odd, Z.pow_1_r, Zmod_odd.
  destruct (Z.odd (Z.shiftr mask i)); reflexivity.
Qed.

Lemma testbit_ones (n i : Z) :
  0 <= n -> Z.testbit (Z.ones n) i = (0 <=? i) && (i <? n).
Proof.
  intros Hn.
  destruct (Z.leb_spec 0 i) as [Hi | Hi]; simpl.
  - destruct (Z.ltb_spec i n).
    + apply Z.ones_spec_low; lia.
    + apply Z.ones_spec_high; lia.
  - apply Z.testbit_neg_r; lia.
Qed.

Lemma testbit_bounded (a n i : Z) :
  0 <= n -> 0 <= a < 2 ^ n -> Z.testbit a i = true -> 0 <= i < n.
Proof.
  intros Hn Ha Hb.
  destruct (Z.ltb_spec i 0) as [Hi | Hi].
  - rewrite Z.testbit_neg_r in Hb by lia. discriminate.
  - split; [ exact Hi | ].
    destruct (Z.ltb_spec i n) as [ | Hge]; [ assumption | ].
    rewrite <- (Z.mod_small a (2 ^ n)) in Hb by lia.
    rewrite Z.mod_pow2_bits_high in Hb by lia. discriminate.
Qed.

Lemma testbit_uint64 (m i : Z) :
  is_uint64 m -> Z.testbit m i = true -> 0 <= i < 64.
Proof.
  intros Hm. apply testbit_bounded; [ lia | ].
  unfold is_uint64, UINT64_MAX in Hm. change (2 ^ 64) with 18446744073709551616. lia.
Qed.

Lemma to_uint64_small (x : Z) : is_uint64 x -> to_uint64 x = x.
Proof.
  intros Hx. unfold to_uint64. rewrite UINT64_MAX_ones, Z.land_ones by lia.
  apply Z.mod_small. unfold is_uint64, UINT64_MAX in Hx.
  change (2 ^ 64) with 18446744073709551616. lia.
Qed.

Lemma testbit_shl1_u64 (i j : Z) :
  0 <= i < 64 -> Z.testbit (shl1_u64 i) j = (j =? i).
Proof.
  intros Hi. unfold shl1_u64, to_uint64.
  rewrite UINT64_MAX_ones, Z.land_spec, testbit_ones by lia.
  rewrite Z.shiftl_1_l.
  destruct (Z.eqb_spec j i) as [-> | Hne].
  - rewrite Z.pow2_bits_true by lia.
    destruct (Z.leb_spec 0 i), (Z.ltb_spec i 64); first [ reflexivity | lia ].
  - rewrite Z.pow2_bits_false by lia. reflexivity.
Qed.

(** A nonzero [uint64_t] has a set bit among its 64 positions. *)
Lemma uint64_nonzero_bit (m : Z) :
  is_uint64 m -> m <> 0 -> exists j, 0 <= j < 64 /\ Z.testbit m j = true.
Proof.
  intros Hm Hnz.
  assert (Hpos : 0 < m) by (unfold is_uint64 in Hm; lia).
  exists (Z.log2 m).
  assert (Hb : Z.testbit m (Z.log2 m) = true) by (apply Z.bit_log2; lia).
  split; [ | exact Hb ].
  eapply testbit_uint64; eauto.
Qed.

(** ** macOS backend *)

Section DarwinFacts.
Local Open Scope prog_scope.

(** The scan either stops at the lowest set bit [j] at or above [i], where
    it runs the loop body for [j], or finds bits [i .. 63] clear. *)
Lemma first_core_loop_cases (budget : nat) (i mask : Z) :
  0 <= i <= 64 -> 64 - i < Z.of_nat budget ->
  (exists j, i <= j < 64 /\ Z.testbit mask j = true /\
     (forall l, i <= l < j -> Z.testbit mask l = false) /\
     Darwin.first_core_loop budget i mask =
     (self <- call Darwin.pthread_self ;;
      mach_thread <- call (Darwin.pthread_mach_thread_np self) ;;
      result <- call (Darwin.thread_policy_set
                        mach_thread Darwin.THREAD_AFFINITY_POLICY [j]
                        Darwin.THREAD_AFFINITY_POLICY_COUNT) ;;
      Ret true))
  \/ ((forall l, i <= l < 64 -> Z.testbit mask l = false) /\
      Darwin.first_core_loop budget i mask = Ret false).
Proof.
  revert i. induction budget as [ | budget IH]; intros i Hi Hb.
  - lia.
  - cbn [Darwin.first_core_loop].
    destruct (Z.ltb_spec i 64) as [Hlt | Hge].
    + rewrite bit_is_set_testbit by lia.
      destruct (Z.testbit mask i) eqn:Hbit.
      * left. exists i. repeat split; try lia; auto; intros; lia.
      * destruct (IH (i + 1)) as [(j & Hj & Hset & Hlow & Heq) | [Hclear Heq]];
          try lia.
        -- left. exists j. repeat split; try lia; auto.
           intros l Hl. destruct (Z.eq_dec l i) as [-> | Hne]; auto.
           apply Hlow. lia.
        -- right. split; auto.
           intros l Hl. destruct (Z.eq_dec l i) as [-> | Hne]; auto.
           apply Hclear. lia.
    + right. split; auto. intros l Hl. lia.
Qed.

Context {W : Type} (sys : Darwin.os W).

Lemma darwin_set_exec_arm (w : W) (mask : Z) :
  Darwin.reports_arm64 sys w = true ->
  exec sys (Darwin.moonbit_set_affinity_mask mask) w =
  Some (Outcome true
          (snd (sys (Darwin.sysctlbyname "hw.optional.arm64" Darwin.sizeof_int) w))
          [Darwin.sysctlbyname "hw.optional.arm64" Darwin.sizeof_int]).
Proof.
  unfold Darwin.reports_arm64, Darwin.moonbit_set_affinity_mask.
  cbn [bind call exec].
  destruct (sys _ w) as [[rc v] w0]. cbn [fst snd]. intros ->. reflexivity.
Qed.

Lemma darwin_set_exec_intel (w : W) (mask : Z) :
  Darwin.reports_arm64 sys w = false ->
  exec sys (Darwin.moonbit_set_affinity_mask mask) w =
  match exec sys (Darwin.first_core_loop LOOP_BUDGET 0 mask)
             (snd (sys (Darwin.sysctlbyname "hw.optional.arm64" Darwin.sizeof_int) w))
  with
  | Some o =>
      Some (Outcome (value o) (final o)
              (Darwin.sysctlbyname "hw.optional.arm64" Darwin.sizeof_int :: trace o))
  | None => None
  end.
Proof.
  unfold Darwin.reports_arm64, Darwin.moonbit_set_affinity_mask.
  cbn [bind call exec].
  destruct (sys _ w) as [[rc v] w0]. cbn [fst snd]. intros ->. reflexivity.
Qed.

(** The scan of a nonzero [uint64_t] hits; that of zero misses. *)
Lemma first_core_loop_nonzero (mask : Z) :
  is_uint64 mask -> mask <> 0 ->
  exists j, 0 <= j < 64 /\ Z.testbit mask j = true /\
    (forall l, 0 <= l < j -> Z.testbit mask l = false) /\
    Darwin.first_core_loop LOOP_BUDGET 0 mask =
    (self <- call Darwin.pthread_self ;;
     mach_thread <- call (Darwin.pthread_mach_thread_np self) ;;
     result <- call (Darwin.thread_policy_set
                       mach_thread Darwin.THREAD_AFFINITY_POLICY [j]
                       Darwin.THREAD_AFFINITY_POLICY_COUNT) ;;
     Ret true).
Proof.
  intros Hm Hnz.
  destruct (first_core_loop_cases LOOP_BUDGET 0 mask) as [Hhit | [Hclear _]];
    [ lia | unfold LOOP_BUDGET; lia | exact Hhit | ].
  destruct (uint64_nonzero_bit mask Hm Hnz) as (j & Hj & Hset).
  rewrite Hclear in Hset by lia. discriminate.
Qed.

Lemma first_core_loop_zero : Darwin.first_core_loop LOOP_BUDGET 0 0 = Ret false.
Proof. reflexivity. Qed.

Lemma darwin_set_value_intel (w : W) (mask : Z) :
  Darwin.reports_arm64 sys w = false -> is_uint64 mask ->
  exists o, exec sys (Darwin.moonbit_set_affinity_mask mask) w = Some o /\
            value o = negb (mask =? 0) /\
            hd_error (trace o) =
            Some (Darwin.sysctlbyname "hw.optional.arm64" Darwin.sizeof_int).
Proof.
  intros Hintel Hm. rewrite (darwin_set_exec_intel w mask Hintel).
  destruct (Z.eqb_spec mask 0) as [-> | Hnz].
  - rewrite first_core_loop_zero. simpl. eexists. repeat split.
  - destruct (first_core_loop_nonzero mask Hm Hnz) as (j & _ & _ & _ & ->).
    cbn [bind call exec].
    destruct (sys Darwin.pthread_self _) as [self w1].
    destruct (sys (Darwin.pthread_mach_thread_np self) w1) as [port w2].
    destruct (sys (Darwin.thread_policy_set _ _ _ _) w2) as [kr w3].
    simpl. eexists. repeat split.
Qed.
End DarwinFacts.

(** C1. On Intel macOS (the system does not report an ARM64 processor), for
    every nonzero mask the binder finds the lowest set bit [j], obtains the
    calling thread's Mach port, issues exactly one [thread_policy_set] request
    on that port with the affinity policy and tag [j], and returns [true]
    whatever return code [kr] that request produced. *)
Theorem intel_bind_first_set_bit {W : Type} (sys : Darwin.os W) (w : W) (mask : Z) :
  Darwin.reports_arm64 sys w = false ->
  is_uint64 mask -> mask <> 0 ->
  exists j, 0 <= j < 64 /\ Z.testbit mask j = true /\
    (forall l, 0 <= l < j -> Z.testbit mask l = false) /\
    let w0 := snd (sys (Darwin.sysctlbyname "hw.optional.arm64" Darwin.sizeof_int) w) in
    let (self, w1) := sys Darwin.pthread_self w0 in
    let (port, w2) := sys (Darwin.pthread_mach_thread_np self) w1 in
    let (kr, w3) :=
      sys (Darwin.thread_policy_set port Darwin.THREAD_AFFINITY_POLICY [j]
                                    Darwin.THREAD_AFFINITY_POLICY_COUNT) w2 in
    exec sys (Darwin.moonbit_set_affinity_mask mask) w =
    Some (Outcome true w3
            [Darwin.sysctlbyname "hw.optional.arm64" Darwin.sizeof_int;
             Darwin.pthread_self;
             Darwin.pthread_mach_thread_np self;
             Darwin.thread_policy_set port Darwin.THREAD_AFFINITY_POLICY [j]
                                      Darwin.THREAD_AFFINITY_POLICY_COUNT]).
Proof.
  intros Hintel Hm Hnz.
  destruct (first_core_loop_nonzero mask Hm Hnz) as (j & Hj & Hset & Hlow & Heq).
  exists j. repeat split; try lia; auto.
  rewrite (darwin_set_exec_intel sys w mask Hintel), Heq.
  cbn [bind call exec].
  destruct (sys Darwin.pthread_self _) as [self w1].
  destruct (sys (Darwin.pthread_mach_thread_np self) w1) as [port w2].
  destruct (sys (Darwin.thread_policy_set _ _ _ _) w2) as [kr w3].
  reflexivity.
Qed.

Lemma intel_bind_first_set_bit_witness :
  exists j, 0 <= j < 64 /\ Z.testbit 12 j = true /\
    (forall l, 0 <= l < j -> Z.testbit 12 l = false) /\
    exec Darwin.kernel_step (Darwin.moonbit_set_affinity_mask 12)
         (Darwin.Kernel 8 None 0) =
    Some (Outcome true (Darwin.Kernel 8 None j)
            [Darwin.sysctlbyname "hw.optional.arm64" 4;
             Darwin.pthread_self;
             Darwin.pthread_mach_thread_np 1;
             Darwin.thread_policy_set 259 4 [j] 1]).
Proof.
  destruct (intel_bind_first_set_bit Darwin.kernel_step (Darwin.Kernel 8 None 0) 12)
    as (j & Hj & Hset & Hlow & Hexec).
  - reflexivity.
  - unfold is_uint64, UINT64_MAX. lia.
  - discriminate.
  - exists j. repeat split; try lia; auto.
Defined.

(** C2. On Apple Silicon (the system reports an ARM64 processor) the binder
    returns [true] for every mask, the zero mask included, and its only call
    is the [sysctlbyname] query: no request touches the thread's scheduling. *)
Theorem apple_silicon_bind_always_true {W : Type} (sys : Darwin.os W) (w : W)
  (mask : Z) :
  Darwin.reports_arm64 sys w = true ->
  exec sys (Darwin.moonbit_set_affinity_mask mask) w =
  Some (Outcome true
          (snd (sys (Darwin.sysctlbyname "hw.optional.arm64" Darwin.sizeof_int) w))
          [Darwin.sysctlbyname "hw.optional.arm64" Darwin.sizeof_int]).
Proof. apply darwin_set_exec_arm. Qed.

Lemma apple_silicon_bind_always_true_witness :
  exec Darwin.kernel_step (Darwin.moonbit_set_affinity_mask 0)
       (Darwin.Kernel 8 (Some 1) 0) =
  Some (Outcome true (Darwin.Kernel 8 (Some 1) 0)
          [Darwin.sysctlbyname "hw.optional.arm64" 4]).
Proof.
  apply (apple_silicon_bind_always_true Darwin.kernel_step
           (Darwin.Kernel 8 (Some 1) 0) 0).
  reflexivity.
Defined.



(** For a negative count the shift [1ULL << count] has no defined result. *)
Lemma macos_query_negative_count {W : Type} (sys : Darwin.os W) (w w' : W) (c : Z) :
  sys (Darwin.sysctlbyname "hw.logicalcpu" Darwin.sizeof_int) w = ((0, c), w') ->
  c < 0 ->
  exec sys Darwin.moonbit_get_affinity_mask w = None.
Proof.
  intros Hsys Hc. unfold Darwin.moonbit_get_affinity_mask.
  cbn [bind call exec]. rewrite Hsys. cbn [Z.eqb].
  rewrite Z.geb_leb. destruct (Z.leb_spec 64 c); [ lia | ].
  unfold shl_u64. destruct (Z.leb_spec 0 c); [ lia | ]. reflexivity.
Qed.

(** C3. The macOS query asks for [hw.logicalcpu] once.  When the query
    succeeds with a count [c] below 64 the result is [2^c - 1], the mask of
    the [c] low bits; with [c >= 64] it is the all-ones 64-bit mask; when the
    query fails the result is 0. *)
Theorem macos_query_mask {W : Type} (sys : Darwin.os W) (w w' : W) (rc c : Z) :
  sys (Darwin.sysctlbyname "hw.logicalcpu" Darwin.sizeof_int) w = ((rc, c), w') ->
  (rc = 0 -> 0 <= c) ->
  exec sys Darwin.moonbit_get_affinity_mask w =
    Some (Outcome (if rc =? 0 then if c <? 64 then 2 ^ c - 1 else UINT64_MAX
                   else 0)
            w' [Darwin.sysctlbyname "hw.logicalcpu" Darwin.sizeof_int]) /\
  (0 <= c -> forall i, Z.testbit (2 ^ c - 1) i = (0 <=? i) && (i <? c)).
Proof.
  intros Hsys Hc. split.
  - unfold Darwin.moonbit_get_affinity_mask.
    cbn [bind call exec]. rewrite Hsys.
    destruct (Z.eqb_spec rc 0) as [Hrc | Hrc]; [ | reflexivity ].
    specialize (Hc Hrc).
    rewrite Z.geb_leb.
    destruct (Z.leb_spec 64 c) as [Hge | Hlt], (Z.ltb_spec c 64); try lia.
    + reflexivity.
    + unfold shl_u64.
      destruct (Z.leb_spec 0 c); [ | lia ].
      destruct (Z.ltb_spec c 64); [ | lia ].
      cbn [andb bind exec value final trace].
      rewrite Z.shiftl_1_l.
      assert (Hpow : 0 < 2 ^ c < 2 ^ 64).
      { split; [ apply Z.pow_pos_nonneg; lia | apply Z.pow_lt_mono_r; lia ]. }
      change (2 ^ 64) with 18446744073709551616 in Hpow.
      rewrite (to_uint64_small (2 ^ c)) by (unfold is_uint64, UINT64_MAX; lia).
      rewrite to_uint64_small by (unfold is_uint64, UINT64_MAX; lia).
      reflexivity.
  - intros Hc0 i.
    replace (2 ^ c - 1) with (Z.ones c) by (rewrite Z.ones_equiv; lia).
    apply testbit_ones; lia.
Qed.

Lemma macos_query_mask_witness :
  exec Darwin.kernel_step Darwin.moonbit_get_affinity_mask
       (Darwin.Kernel 8 None 0) =
    Some (Outcome 255 (Darwin.Kernel 8 None 0)
            [Darwin.sysctlbyname "hw.logicalcpu" 4]) /\
  (0 <= 8 -> forall i, Z.testbit (2 ^ 8 - 1) i = (0 <=? i) && (i <? 8)).
Proof.
  apply (macos_query_mask Darwin.kernel_step
           (Darwin.Kernel 8 None 0) (Darwin.Kernel 8 None 0) 0 8).
  - reflexivity.
  - lia.
Defined.

(** ** Linux backend *)

(** Case analysis on every integer comparison of the goal. *)
Ltac split_comparisons :=
  repeat match goal with
    | |- context [?a <=? ?b] => destruct (Z.leb_spec a b)
    | |- context [?a <? ?b] => destruct (Z.ltb_spec a b)
    | |- context [?a =? ?b] => destruct (Z.eqb_spec a b)
    end.

(** The part of a mask both loops keep: indices below 64 and below
    [CPU_SETSIZE]. *)
Lemma testbit_kept (CPU_SETSIZE x j : Z) :
  Z.testbit (Z.land x (Z.ones (Z.max 0 (Z.min 64 CPU_SETSIZE)))) j =
  (0 <=? j) && (j <? 64) && (j <? CPU_SETSIZE) && Z.testbit x j.
Proof.
  rewrite Z.land_spec, testbit_ones by lia.
  destruct (Z.testbit x j); split_comparisons; first [ reflexivity | lia ].
Qed.

Section LinuxFacts.
Variable CPU_SETSIZE : Z.

Lemma get_loop_spec (budget : nat) (i : Z) (set acc : Z) :
  0 <= i <= 64 -> 64 - i < Z.of_nat budget ->
  exists r, Linux.get_loop CPU_SETSIZE budget i set acc = Ret r /\
    forall j, Z.testbit r j =
              Z.testbit acc j ||
              ((i <=? j) && (j <? 64) && Linux.CPU_ISSET CPU_SETSIZE j set).
Proof.
  revert i acc. induction budget as [ | budget IH]; intros i acc Hi Hb.
  - lia.
  - cbn [Linux.get_loop].
    destruct (Z.ltb_spec i 64) as [H64 | H64];
      [ destruct (Z.ltb_spec i CPU_SETSIZE) as [Hss | Hss] | ]; cbn [andb].
    + destruct (IH (i + 1)
                  (if Linux.CPU_ISSET CPU_SETSIZE i set
                   then Z.lor acc (shl1_u64 i) else acc))
        as (r & Hr & Hbits); try lia.
      exists r. split; [ exact Hr | ]. intros j. rewrite Hbits.
      destruct (Z.eq_dec j i) as [-> | Hne].
      * destruct (Linux.CPU_ISSET CPU_SETSIZE i set) eqn:Hmem.
        -- rewrite Z.lor_spec, testbit_shl1_u64, Z.eqb_refl by lia.
           destruct (Z.testbit acc i); split_comparisons;
             first [ reflexivity | lia ].
        -- destruct (Z.testbit acc i); split_comparisons;
             first [ reflexivity | lia ].
      * assert (Hacc : Z.testbit (if Linux.CPU_ISSET CPU_SETSIZE i set
                                  then Z.lor acc (shl1_u64 i) else acc) j =
                       Z.testbit acc j).
        { destruct (Linux.CPU_ISSET CPU_SETSIZE i set); [ | reflexivity ].
          rewrite Z.lor_spec, testbit_shl1_u64 by lia.
          destruct (Z.eqb_spec j i); [ lia | apply orb_false_r ]. }
        rewrite Hacc.
        destruct (Z.testbit acc j), (Linux.CPU_ISSET CPU_SETSIZE j set);
          split_comparisons; first [ reflexivity | lia ].
    + exists acc. split; [ reflexivity | ]. intros j.
      unfold Linux.CPU_ISSET.
      destruct (Z.testbit acc j), (Z.testbit set j); split_comparisons;
        first [ reflexivity | lia ].
    + exists acc. split; [ reflexivity | ]. intros j.
      destruct (Z.testbit acc j), (Linux.CPU_ISSET CPU_SETSIZE j set);
        split_comparisons; first [ reflexivity | lia ].
Qed.

Lemma get_loop_ret (set : Z) :
  Linux.get_loop CPU_SETSIZE LOOP_BUDGET 0 set 0 =
  Ret (Z.land set (Z.ones (Z.max 0 (Z.min 64 CPU_SETSIZE)))).
Proof.
  destruct (get_loop_spec LOOP_BUDGET 0 set 0) as (r & -> & Hbits);
    [ lia | unfold LOOP_BUDGET; lia | ].
  f_equal. apply Z.bits_inj. intros j.
  rewrite Hbits, testbit_kept, Z.bits_0. unfold Linux.CPU_ISSET.
  destruct (Z.testbit set j); split_comparisons; first [ reflexivity | lia ].
Qed.

Lemma testbit_CPU_SET (i j : Z) (set : Z) :
  Z.testbit (Linux.CPU_SET CPU_SETSIZE i set) j =
  Z.testbit set j || ((0 <=? i) && (i <? CPU_SETSIZE) && (j =? i)).
Proof.
  unfold Linux.CPU_SET.
  destruct (Z.leb_spec 0 i); [ destruct (Z.ltb_spec i CPU_SETSIZE) | ];
    cbn [andb]; try (now rewrite orb_false_r).
  rewrite Z.lor_spec, Z.shiftl_1_l, Z.pow2_bits_eqb by lia.
  now rewrite (Z.eqb_sym i j).
Qed.

Lemma set_loop_spec (budget : nat) (i mask_val : Z) (acc : Z) :
  0 <= i <= 64 -> 64 - i < Z.of_nat budget ->
  exists s, Linux.set_loop CPU_SETSIZE budget i mask_val acc = Ret s /\
    forall j, Z.testbit s j =
              Z.testbit acc j ||
              ((i <=? j) && (j <? 64) && (j <? CPU_SETSIZE)
               && Z.testbit mask_val j).
Proof.
  revert i acc. induction budget as [ | budget IH]; intros i acc Hi Hb.
  - lia.
  - cbn [Linux.set_loop].
    destruct (Z.ltb_spec i 64) as [H64 | H64].
    + destruct (IH (i + 1)
                  (if bit_is_set mask_val i
                   then Linux.CPU_SET CPU_SETSIZE i acc else acc))
        as (s & Hs & Hbits); try lia.
      exists s. split; [ exact Hs | ]. intros j. rewrite Hbits.
      rewrite bit_is_set_testbit by lia.
      assert (Hacc : Z.testbit (if Z.testbit mask_val i
                                then Linux.CPU_SET CPU_SETSIZE i acc else acc) j =
                       Z.testbit acc j ||
                       ((j =? i) && (i <? CPU_SETSIZE) && Z.testbit mask_val i)).
      { destruct (Z.testbit mask_val i).
        - rewrite testbit_CPU_SET.
          destruct (Z.testbit acc j); split_comparisons;
            first [ reflexivity | lia ].
        - now rewrite !andb_false_r, orb_false_r. }
      rewrite Hacc.
      destruct (Z.eq_dec j i) as [-> | Hne].
      * destruct (Z.testbit acc i), (Z.testbit mask_val i); split_comparisons;
          first [ reflexivity | lia ].
      * destruct (Z.testbit acc j), (Z.testbit mask_val i),
          (Z.testbit mask_val j); split_comparisons;
          first [ reflexivity | lia ].
    + exists acc. split; [ reflexivity | ]. intros j.
      destruct (Z.testbit acc j), (Z.testbit mask_val j); split_comparisons;
        first [ reflexivity | lia ].
Qed.

Lemma set_loop_ret (mask_val : Z) :
  Linux.set_loop CPU_SETSIZE LOOP_BUDGET 0 mask_val (Linux.CPU_ZERO) =
  Ret (Z.land mask_val (Z.ones (Z.max 0 (Z.min 64 CPU_SETSIZE)))).
Proof.
  destruct (set_loop_spec LOOP_BUDGET 0 mask_val Linux.CPU_ZERO)
    as (s & -> & Hbits); [ lia | unfold LOOP_BUDGET; lia | ].
  f_equal. apply Z.bits_inj. intros j.
  rewrite Hbits, testbit_kept. unfold Linux.CPU_ZERO. rewrite Z.bits_0.
  destruct (Z.testbit mask_val j); split_comparisons;
    first [ reflexivity | lia ].
Qed.
End LinuxFacts.

Section LinuxExec.
Variable CPU_SETSIZE : Z.

(** The set the binder hands to the kernel. *)
Local Abbreviation requested mask_val :=
  (Z.land mask_val (Z.ones (Z.max 0 (Z.min 64 CPU_SETSIZE)))).

Lemma linux_get_exec {W : Type} (sys : Linux.os W) (w w' : W) (rc set : Z) :
  sys (Linux.sched_getaffinity 0 (Linux.sizeof_cpu_set_t CPU_SETSIZE)) w =
    ((rc, set), w') ->
  exec sys (Linux.moonbit_get_affinity_mask CPU_SETSIZE) w =
  Some (Outcome (if rc =? 0 then requested set else 0) w'
          [Linux.sched_getaffinity 0 (Linux.sizeof_cpu_set_t CPU_SETSIZE)]).
Proof.
  intros Hsys. unfold Linux.moonbit_get_affinity_mask.
  cbn [bind call exec]. rewrite Hsys.
  destruct (rc =? 0); [ | reflexivity ].
  rewrite get_loop_ret. reflexivity.
Qed.

Lemma linux_set_exec {W : Type} (sys : Linux.os W) (w : W) (mask_val : Z) :
  exec sys (Linux.moonbit_set_affinity_mask CPU_SETSIZE mask_val) w =
  let r := Linux.sched_setaffinity 0 (Linux.sizeof_cpu_set_t CPU_SETSIZE)
                                   (requested mask_val) in
  Some (Outcome (fst (sys r w) =? 0) (snd (sys r w)) [r]).
Proof.
  unfold Linux.moonbit_set_affinity_mask.
  rewrite set_loop_ret. cbn [bind call exec].
  destruct (sys _ w) as [rc w']. reflexivity.
Qed.

(** Under the reference kernel the binder succeeds exactly when the
    requested set meets the CPUs available to the thread, and then installs
    the intersection. *)
Lemma linux_set_kernel (k : Linux.kernel) (mask_val : Z) :
  exec Linux.kernel_step (Linux.moonbit_set_affinity_mask CPU_SETSIZE mask_val) k =
  let new_mask := Z.land (requested mask_val) (Linux.cpus_allowed k) in
  Some (Outcome (negb (new_mask =? 0))
          (if new_mask =? 0 then k
           else Linux.Kernel (Linux.ncpus k) (Linux.cpus_allowed k) new_mask)
          [Linux.sched_setaffinity 0 (Linux.sizeof_cpu_set_t CPU_SETSIZE)
                                   (requested mask_val)]).
Proof.
  rewrite linux_set_exec. cbn [Linux.kernel_step Z.eqb].
  cbv zeta.
  destruct (Z.land (requested mask_val) (Linux.cpus_allowed k) =? 0);
    reflexivity.
Qed.
End LinuxExec.

(** C6. The Linux query calls [sched_getaffinity] once for the calling
    thread.  When the call returns 0, bit [i] of the result is set exactly
    when [i] is below 64 and CPU [i] is a member of the set the call stored
    (membership as [CPU_ISSET] decides it, hence also [i < CPU_SETSIZE]);
    when the call fails the result is 0. *)
Theorem linux_query_converts_cpu_set {W : Type} (CPU_SETSIZE : Z)
  (sys : Linux.os W) (w w' : W) (rc set : Z) :
  sys (Linux.sched_getaffinity 0 (Linux.sizeof_cpu_set_t CPU_SETSIZE)) w =
    ((rc, set), w') ->
  exists o,
    exec sys (Linux.moonbit_get_affinity_mask CPU_SETSIZE) w = Some o /\
    final o = w' /\
    trace o = [Linux.sched_getaffinity 0 (Linux.sizeof_cpu_set_t CPU_SETSIZE)] /\
    (rc <> 0 -> value o = 0) /\
    (rc = 0 ->
     forall i, Z.testbit (value o) i =
               (i <? 64) && Linux.CPU_ISSET CPU_SETSIZE i set).
Proof.
  intros Hsys. rewrite (linux_get_exec CPU_SETSIZE sys w w' rc set Hsys).
  eexists. split; [ reflexivity | ]. cbn [value final trace].
  repeat split.
  - intros Hrc. destruct (Z.eqb_spec rc 0); [ contradiction | reflexivity ].
  - intros -> i. cbn [Z.eqb]. rewrite testbit_kept. unfold Linux.CPU_ISSET.
    destruct (Z.testbit set i); split_comparisons; first [ reflexivity | lia ].
Qed.

Lemma linux_query_converts_cpu_set_witness :
  exists o,
    exec Linux.kernel_step (Linux.moonbit_get_affinity_mask 1024)
         (Linux.Kernel 4 15 5) = Some o /\
    final o = Linux.Kernel 4 15 5 /\
    trace o = [Linux.sched_getaffinity 0 128] /\
    (0 <> 0 -> value o = 0) /\
    (0 = 0 ->
     forall i, Z.testbit (value o) i = (i <? 64) && Linux.CPU_ISSET 1024 i 5).
Proof.
  apply (linux_query_converts_cpu_set 1024 Linux.kernel_step
           (Linux.Kernel 4 15 5) (Linux.Kernel 4 15 5) 0 5).
  reflexivity.
Defined.

(** ** Windows backend *)

Section Win32Facts.
Variable DWORD_PTR_BITS : Z.

(** Whether the reference kernel accepts a thread affinity mask. *)
Local Abbreviation accepted k m :=
  (negb (m =? 0) && (Z.land m (Win32.process_mask k) =? m)).

Lemma win32_set_kernel (k : Win32.kernel) (mask : Z) :
  exec Win32.kernel_step (Win32.moonbit_set_affinity_mask DWORD_PTR_BITS mask) k =
  let m := Win32.to_DWORD_PTR DWORD_PTR_BITS mask in
  Some (Outcome (accepted k m && negb (Win32.thread_mask k =? 0))
          (if accepted k m
           then Win32.Kernel (Win32.system_mask k) (Win32.process_mask k) m
           else k)
          [Win32.GetCurrentThread;
           Win32.SetThreadAffinityMask Win32.current_thread m]).
Proof.
  unfold Win32.moonbit_set_affinity_mask.
  cbn [bind call exec Win32.kernel_step]. cbv zeta.
  change (Win32.current_thread =? Win32.current_thread) with true.
  cbn [andb].
  destruct (negb (Win32.to_DWORD_PTR DWORD_PTR_BITS mask =? 0)
            && (Z.land (Win32.to_DWORD_PTR DWORD_PTR_BITS mask)
                       (Win32.process_mask k)
                =? Win32.to_DWORD_PTR DWORD_PTR_BITS mask)); reflexivity.
Qed.

Lemma win32_get_kernel (k : Win32.kernel) :
  exec Win32.kernel_step Win32.moonbit_get_affinity_mask k =
  Some (Outcome (to_uint64 (Win32.process_mask k)) k
          [Win32.GetCurrentProcess;
           Win32.GetProcessAffinityMask Win32.current_process]).
Proof. reflexivity. Qed.
End Win32Facts.

(** ** The reference macOS kernel *)

Lemma darwin_kernel_reports_arm64 (k : Darwin.kernel) :
  Darwin.reports_arm64 Darwin.kernel_step k = Darwin.arm64 k.
Proof.
  unfold Darwin.reports_arm64, Darwin.arm64. cbn [Darwin.kernel_step String.eqb].
  change (String.eqb "hw.optional.arm64" "hw.logicalcpu") with false.
  change (String.eqb "hw.optional.arm64" "hw.optional.arm64") with true.
  cbv iota.
  destruct (Darwin.hw_optional_arm64 k); reflexivity.
Qed.

Lemma darwin_kernel_sysctl_state (k : Darwin.kernel) (name : string) (len : Z) :
  snd (Darwin.kernel_step (Darwin.sysctlbyname name len) k) = k.
Proof.
  cbn [Darwin.kernel_step].
  destruct (String.eqb name "hw.logicalcpu"); [ reflexivity | ].
  destruct (String.eqb name "hw.optional.arm64"); [ | reflexivity ].
  destruct (Darwin.hw_optional_arm64 k); reflexivity.
Qed.

(** Under the reference kernel the binder's result is a function of the mask
    and of what the kernel reports for [hw.optional.arm64], and the call
    leaves that report unchanged. *)
Lemma darwin_set_kernel_stable (k1 k2 : Darwin.kernel) (mask : Z) :
  Darwin.hw_optional_arm64 k1 = Darwin.hw_optional_arm64 k2 ->
  exists o1 o2,
    exec Darwin.kernel_step (Darwin.moonbit_set_affinity_mask mask) k1 = Some o1 /\
    exec Darwin.kernel_step (Darwin.moonbit_set_affinity_mask mask) k2 = Some o2 /\
    value o1 = value o2 /\
    Darwin.hw_optional_arm64 (final o1) = Darwin.hw_optional_arm64 k1.
Proof.
  intros Hsame.
  assert (Harm : Darwin.arm64 k1 = Darwin.arm64 k2)
    by (unfold Darwin.arm64; now rewrite Hsame).
  destruct (Darwin.arm64 k1) eqn:H1.
  - rewrite !darwin_set_exec_arm
      by (rewrite darwin_kernel_reports_arm64; congruence).
    do 2 eexists. repeat split. cbn [final].
    now rewrite darwin_kernel_sysctl_state.
  - rewrite !darwin_set_exec_intel
      by (rewrite darwin_kernel_reports_arm64; congruence).
    rewrite !darwin_kernel_sysctl_state.
    destruct (first_core_loop_cases LOOP_BUDGET 0 mask)
      as [(j & _ & _ & _ & ->) | [_ ->]];
      [ lia | unfold LOOP_BUDGET; lia | | ].
    + cbn [bind call exec Darwin.kernel_step].
      rewrite H1, <- Harm.
      change (Darwin.self_pthread =? Darwin.self_pthread) with true.
      change ((Darwin.self_port =? Darwin.self_port)
              && (Darwin.THREAD_AFFINITY_POLICY =? Darwin.THREAD_AFFINITY_POLICY)
              && (Darwin.THREAD_AFFINITY_POLICY_COUNT
                  =? Darwin.THREAD_AFFINITY_POLICY_COUNT)) with true.
      cbv iota. cbn [exec value final trace].
      do 2 eexists. repeat split.
    + cbn [exec]. do 2 eexists. repeat split.
Qed.

(** ** Masks restricted to the CPUs that exist *)

Lemma nonzero_has_bit (x : Z) :
  0 <= x -> x <> 0 -> exists j, 0 <= j /\ Z.testbit x j = true.
Proof.
  intros Hx Hnz. exists (Z.log2 x). split.
  - apply Z.log2_nonneg.
  - apply Z.bit_log2. lia.
Qed.

(** The scan of a mask and the scan of its [n] low bits run the same
    program when the low bits are not all clear (or the mask is empty). *)
Lemma first_core_loop_low_bits (mask n : Z) :
  is_uint64 mask -> 0 <= n ->
  Z.land mask (Z.ones n) <> 0 \/ mask = 0 ->
  Darwin.first_core_loop LOOP_BUDGET 0 (Z.land mask (Z.ones n)) =
  Darwin.first_core_loop LOOP_BUDGET 0 mask.
Proof.
  intros Hm Hn Hlow.
  assert (Hbit : forall j, Z.testbit (Z.land mask (Z.ones n)) j =
                           Z.testbit mask j && ((0 <=? j) && (j <? n))).
  { intros j. now rewrite Z.land_spec, testbit_ones. }
  destruct (first_core_loop_cases LOOP_BUDGET 0 mask)
    as [(j & Hj & Hset & Hclear & ->) | [Hclear ->]];
    [ lia | unfold LOOP_BUDGET; lia | | ];
    (destruct (first_core_loop_cases LOOP_BUDGET 0 (Z.land mask (Z.ones n)))
      as [(j' & Hj' & Hset' & Hclear' & ->) | [Hclear' ->]];
     [ lia | unfold LOOP_BUDGET; lia | | ]).
  - rewrite Hbit in Hset'. apply andb_prop in Hset' as [Hset' Hrange].
    assert (j < n).
    { destruct Hlow as [Hnz | ->]; [ | now rewrite Z.bits_0 in Hset ].
      destruct (nonzero_has_bit _ (proj2 (Z.land_nonneg _ _)
                                     (or_introl (proj1 Hm))) Hnz)
        as (l & Hl & Hlset).
      rewrite Hbit in Hlset. apply andb_prop in Hlset as [Hlset Hlrange].
      destruct (Z.ltb_spec l n); [ | now rewrite andb_false_r in Hlrange ].
      destruct (Z.lt_ge_cases l j) as [Hlt | Hge]; [ | lia ].
      rewrite Hclear in Hlset by lia. discriminate. }
    assert (j' = j).
    { destruct (Z.lt_trichotomy j' j) as [Hlt | [Heq | Hgt]]; [ | exact Heq | ].
      - rewrite Hclear in Hset' by lia. discriminate.
      - specialize (Hclear' j ltac:(lia)). rewrite Hbit, Hset in Hclear'.
        destruct (Z.leb_spec 0 j), (Z.ltb_spec j n); first [ lia | discriminate ]. }
    subst j'. reflexivity.
  - specialize (Hclear' j ltac:(lia)). rewrite Hbit, Hset in Hclear'.
    destruct Hlow as [Hnz | ->]; [ | now rewrite Z.bits_0 in Hset ].
    destruct (nonzero_has_bit _ (proj2 (Z.land_nonneg _ _)
                                   (or_introl (proj1 Hm))) Hnz)
      as (l & Hl & Hlset).
    rewrite Hbit in Hlset. apply andb_prop in Hlset as [Hlset Hlrange].
    destruct (Z.ltb_spec l n); [ | now rewrite andb_false_r in Hlrange ].
    destruct (Z.lt_ge_cases l j) as [Hlt | Hge].
    + rewrite Hclear in Hlset by lia. discriminate.
    + destruct (Z.leb_spec 0 j), (Z.ltb_spec j n); first [ lia | discriminate ].
  - rewrite Hbit, Hclear in Hset' by lia. discriminate.
  - reflexivity.
Qed.

(** The Linux kernel keeps of a requested set only the CPUs available to the
    thread, all of which exist. *)
Lemma linux_effective_set (CPU_SETSIZE : Z) (k : Linux.kernel) (m : Z) :
  Linux.well_formed k ->
  Z.land (Z.land (Z.land m (Z.ones (Linux.ncpus k)))
                 (Z.ones (Z.max 0 (Z.min 64 CPU_SETSIZE))))
         (Linux.cpus_allowed k) =
  Z.land (Z.land m (Z.ones (Z.max 0 (Z.min 64 CPU_SETSIZE))))
         (Linux.cpus_allowed k).
Proof.
  intros [Hn Hallowed]. apply Z.bits_inj. intros j.
  rewrite !Z.land_spec.
  destruct (Z.testbit (Linux.cpus_allowed k) j) eqn:Hj.
  - apply (testbit_bounded _ _ _ Hn Hallowed) in Hj.
    rewrite (testbit_ones (Linux.ncpus k)) by lia.
    destruct (Z.leb_spec 0 j), (Z.ltb_spec j (Linux.ncpus k)); try lia.
    cbn [andb]. now rewrite !andb_true_r.
  - now rewrite !andb_false_r.
Qed.

Lemma linux_get_kernel (CPU_SETSIZE : Z) (k : Linux.kernel) :
  exec Linux.kernel_step (Linux.moonbit_get_affinity_mask CPU_SETSIZE) k =
  Some (Outcome
          (if Linux.ncpus k <=? 8 * Linux.sizeof_cpu_set_t CPU_SETSIZE
           then Z.land (Linux.cpus_mask k)
                       (Z.ones (Z.max 0 (Z.min 64 CPU_SETSIZE)))
           else 0)
          k [Linux.sched_getaffinity 0 (Linux.sizeof_cpu_set_t CPU_SETSIZE)]).
Proof.
  destruct (Linux.ncpus k <=? 8 * Linux.sizeof_cpu_set_t CPU_SETSIZE) eqn:Hlen.
  - rewrite (linux_get_exec CPU_SETSIZE Linux.kernel_step k k 0 (Linux.cpus_mask k));
      [ reflexivity | ].
    cbn [Linux.kernel_step Z.eqb andb]. rewrite Hlen. reflexivity.
  - rewrite (linux_get_exec CPU_SETSIZE Linux.kernel_step k k (-1) 0);
      [ reflexivity | ].
    cbn [Linux.kernel_step Z.eqb andb]. rewrite Hlen. reflexivity.
Qed.


(** * The claims that span the backends *)

(** C7. On a target with no backend the query returns 0 and the binder
    returns [false] for every mask; neither makes a call. *)
Theorem unsupported_platform_results {W : Type}
  (sys : forall r : Fallback.request, W -> Fallback.response r * W)
  (w : W) (mask : Z) :
  exec sys Fallback.moonbit_get_affinity_mask w = Some (Outcome 0 w []) /\
  exec sys (Fallback.moonbit_set_affinity_mask mask) w =
    Some (Outcome false w []).
Proof. split; reflexivity. Qed.

(** C4. The binder applied to the empty mask.  On Linux it hands the empty
    CPU set to [sched_setaffinity] and returns whether the answer is 0; the
    kernel rejects the empty set, so the result is [false].  On Windows it
    hands 0 to [SetThreadAffinityMask] and returns whether the answer is
    nonzero; the kernel rejects 0, so the result is [false].  On Intel macOS
    the scan finds no bit and returns [false] without a policy request.  On
    Apple Silicon the result is [true]. *)
Theorem bind_empty_mask :
  (forall (W : Type) (sys : Linux.os W) (w : W) (CPU_SETSIZE : Z),
     let r := Linux.sched_setaffinity 0 (Linux.sizeof_cpu_set_t CPU_SETSIZE)
                                      Linux.CPU_ZERO in
     exec sys (Linux.moonbit_set_affinity_mask CPU_SETSIZE 0) w =
     Some (Outcome (fst (sys r w) =? 0) (snd (sys r w)) [r])) /\
  (forall (CPU_SETSIZE : Z) (k : Linux.kernel),
     exec Linux.kernel_step (Linux.moonbit_set_affinity_mask CPU_SETSIZE 0) k =
     Some (Outcome false k
             [Linux.sched_setaffinity 0 (Linux.sizeof_cpu_set_t CPU_SETSIZE)
                                      Linux.CPU_ZERO])) /\
  (forall (W : Type) (sys : Win32.os W) (w : W) (DWORD_PTR_BITS : Z),
     let (h, w1) := sys Win32.GetCurrentThread w in
     let (previous, w2) := sys (Win32.SetThreadAffinityMask h 0) w1 in
     exec sys (Win32.moonbit_set_affinity_mask DWORD_PTR_BITS 0) w =
     Some (Outcome (negb (previous =? 0)) w2
             [Win32.GetCurrentThread; Win32.SetThreadAffinityMask h 0])) /\
  (forall (DWORD_PTR_BITS : Z) (k : Win32.kernel),
     exec Win32.kernel_step (Win32.moonbit_set_affinity_mask DWORD_PTR_BITS 0) k =
     Some (Outcome false k
             [Win32.GetCurrentThread;
              Win32.SetThreadAffinityMask Win32.current_thread 0])) /\
  (forall (W : Type) (sys : Darwin.os W) (w : W),
     Darwin.reports_arm64 sys w = false ->
     exec sys (Darwin.moonbit_set_affinity_mask 0) w =
     Some (Outcome false
             (snd (sys (Darwin.sysctlbyname "hw.optional.arm64" Darwin.sizeof_int) w))
             [Darwin.sysctlbyname "hw.optional.arm64" Darwin.sizeof_int])) /\
  (forall (W : Type) (sys : Darwin.os W) (w : W),
     Darwin.reports_arm64 sys w = true ->
     exec sys (Darwin.moonbit_set_affinity_mask 0) w =
     Some (Outcome true
             (snd (sys (Darwin.sysctlbyname "hw.optional.arm64" Darwin.sizeof_int) w))
             [Darwin.sysctlbyname "hw.optional.arm64" Darwin.sizeof_int])).
Proof.
  split; [ | split; [ | split; [ | split; [ | split ] ] ] ].
  - intros W sys w CPU_SETSIZE. rewrite linux_set_exec. reflexivity.
  - intros CPU_SETSIZE k. rewrite linux_set_kernel. reflexivity.
  - intros W sys w DWORD_PTR_BITS.
    unfold Win32.moonbit_set_affinity_mask, Win32.to_DWORD_PTR.
    cbn [bind call exec Z.land].
    destruct (sys Win32.GetCurrentThread w) as [h w1].
    destruct (sys (Win32.SetThreadAffinityMask h 0) w1) as [previous w2].
    reflexivity.
  - intros DWORD_PTR_BITS k. rewrite win32_set_kernel.
    unfold Win32.to_DWORD_PTR. reflexivity.
  - intros W sys w Hintel.
    rewrite (darwin_set_exec_intel sys w 0 Hintel), first_core_loop_zero.
    reflexivity.
  - intros W sys w Harm. apply darwin_set_exec_arm. exact Harm.
Qed.

Lemma bind_empty_mask_witness :
  exec Darwin.kernel_step (Darwin.moonbit_set_affinity_mask 0)
       (Darwin.Kernel 8 None 0) =
    Some (Outcome false (Darwin.Kernel 8 None 0)
            [Darwin.sysctlbyname "hw.optional.arm64" 4]) /\
  exec Darwin.kernel_step (Darwin.moonbit_set_affinity_mask 0)
       (Darwin.Kernel 8 (Some 1) 0) =
    Some (Outcome true (Darwin.Kernel 8 (Some 1) 0)
            [Darwin.sysctlbyname "hw.optional.arm64" 4]).
Proof.
  destruct bind_empty_mask as (_ & _ & _ & _ & Hintel & Harm). split.
  - apply (Hintel _ Darwin.kernel_step (Darwin.Kernel 8 None 0)). reflexivity.
  - apply (Harm _ Darwin.kernel_step (Darwin.Kernel 8 (Some 1) 0)). reflexivity.
Defined.

(** C9. Two calls of the binder in direct succession with the same mask
    return the same boolean: on Linux and on Windows (the first call changes
    the thread's affinity only, which the kernel's verdict does not depend
    on), on macOS (on either processor family) and on a target without
    backend. *)
Theorem bind_twice_same_result :
  (forall (CPU_SETSIZE : Z) (k : Linux.kernel) (m : Z),
     exists o,
       exec Linux.kernel_step
            (both (Linux.moonbit_set_affinity_mask CPU_SETSIZE m)
                  (Linux.moonbit_set_affinity_mask CPU_SETSIZE m)) k = Some o /\
       fst (value o) = snd (value o)) /\
  (forall (DWORD_PTR_BITS : Z) (k : Win32.kernel) (m : Z),
     Win32.well_formed k ->
     exists o,
       exec Win32.kernel_step
            (both (Win32.moonbit_set_affinity_mask DWORD_PTR_BITS m)
                  (Win32.moonbit_set_affinity_mask DWORD_PTR_BITS m)) k = Some o /\
       fst (value o) = snd (value o)) /\
  (forall (k : Darwin.kernel) (m : Z),
     exists o,
       exec Darwin.kernel_step
            (both (Darwin.moonbit_set_affinity_mask m)
                  (Darwin.moonbit_set_affinity_mask m)) k = Some o /\
       fst (value o) = snd (value o)) /\
  (forall (W : Type)
          (sys : forall r : Fallback.request, W -> Fallback.response r * W)
          (w : W) (m : Z),
     exists o,
       exec sys (both (Fallback.moonbit_set_affinity_mask m)
                      (Fallback.moonbit_set_affinity_mask m)) w = Some o /\
       fst (value o) = snd (value o)).
Proof.
  split; [ | split; [ | split ] ].
  - intros CPU_SETSIZE k m. eexists. split.
    + eapply exec_both; rewrite linux_set_kernel; reflexivity.
    + cbn [value final fst snd].
      destruct (Z.land _ (Linux.cpus_allowed k) =? 0) eqn:Hnew.
      * now rewrite Hnew.
      * cbn [Linux.cpus_allowed]. now rewrite Hnew.
  - intros DWORD_PTR_BITS k m Hwf. eexists. split.
    + eapply exec_both; rewrite win32_set_kernel; reflexivity.
    + cbn [value final fst snd].
      unfold Win32.well_formed in Hwf.
      destruct (Z.eqb_spec (Win32.thread_mask k) 0) as [ | _]; [ contradiction | ].
      destruct (Z.eqb_spec (Win32.to_DWORD_PTR DWORD_PTR_BITS m) 0) as [Hz | Hz];
        cbn [negb andb].
      * reflexivity.
      * destruct (Z.land _ (Win32.process_mask k) =? _) eqn:Hsub.
        -- cbn [Win32.process_mask Win32.thread_mask]. rewrite Hsub.
           destruct (Z.eqb_spec (Win32.to_DWORD_PTR DWORD_PTR_BITS m) 0);
             [ contradiction | reflexivity ].
        -- rewrite Hsub. reflexivity.
  - intros k m.
    destruct (darwin_set_kernel_stable k k m eq_refl) as (o1 & _ & H1 & _ & _ & Hfin).
    destruct (darwin_set_kernel_stable k (final o1) m (eq_sym Hfin))
      as (o1' & o2 & H1' & H2 & Hval & _).
    rewrite H1 in H1'. injection H1' as <-.
    eexists. split.
    + eapply exec_both; eassumption.
    + exact Hval.
  - intros W sys w m. eexists. split; reflexivity.
Qed.

Lemma bind_twice_same_result_witness :
  exists o,
    exec Win32.kernel_step
         (both (Win32.moonbit_set_affinity_mask 64 3)
               (Win32.moonbit_set_affinity_mask 64 3))
         (Win32.Kernel 15 15 15) = Some o /\
    fst (value o) = snd (value o).
Proof.
  destruct bind_twice_same_result as (_ & Hwin & _).
  apply (Hwin 64 (Win32.Kernel 15 15 15) 3).
  unfold Win32.well_formed. simpl. discriminate.
Defined.

(** C5, as stated, fails on two backends.  On an Intel Mac with 8 logical
    CPUs the mask with only bit 40 set makes the binder issue a policy request
    with tag 40 and return [true], while the same mask restricted to the 8
    existing CPUs is empty and makes it return [false] without a request.  On
    Windows with 4 CPUs, all open to the process, the mask [0b10001] is
    rejected ([false], affinity unchanged), while the same mask restricted to
    the 4 existing CPUs is [0b00001] and is accepted. *)
Lemma bind_high_bits_counterexample :
  (let k := Darwin.Kernel 8 None 0 in
   let m := 1099511627776 in
   m = 2 ^ 40 /\
   exec Darwin.kernel_step (Darwin.moonbit_set_affinity_mask m) k =
     Some (Outcome true (Darwin.Kernel 8 None 40)
             [Darwin.sysctlbyname "hw.optional.arm64" 4;
              Darwin.pthread_self;
              Darwin.pthread_mach_thread_np 1;
              Darwin.thread_policy_set 259 4 [40] 1]) /\
   exec Darwin.kernel_step
        (Darwin.moonbit_set_affinity_mask
           (Z.land m (Z.ones (Darwin.hw_logicalcpu k)))) k =
     Some (Outcome false k [Darwin.sysctlbyname "hw.optional.arm64" 4])) /\
  (let k := Win32.Kernel 15 15 15 in
   let m := 17 in
   Win32.system_mask k = Z.ones 4 /\
   exec Win32.kernel_step (Win32.moonbit_set_affinity_mask 64 m) k =
     Some (Outcome false k
             [Win32.GetCurrentThread; Win32.SetThreadAffinityMask (-2) 17]) /\
   exec Win32.kernel_step
        (Win32.moonbit_set_affinity_mask 64 (Z.land m (Z.ones 4))) k =
     Some (Outcome true (Win32.Kernel 15 15 1)
             [Win32.GetCurrentThread; Win32.SetThreadAffinityMask (-2) 1])).
Proof.
  cbv zeta. split; (split; [ | split ]); reflexivity.
Qed.

(** C5, amended.  Restricting a mask to the CPUs that exist
    - on Linux leaves the binder's result and the resulting kernel state
      (thread affinity) unchanged, provided the CPUs available to the thread
      all exist: the kernel drops the others;
    - on Apple Silicon and on a target without backend leaves the whole
      execution unchanged: the mask is not read;
    - on Intel macOS leaves the whole execution unchanged when the restricted
      mask is nonempty or the mask is empty; when a nonempty 64-bit mask has
      no bit among the existing CPUs the binder returns [true] for it and
      [false] for its (empty) restriction.
    On Windows the binder, for every operating system, hands
    [SetThreadAffinityMask] the mask converted to [DWORD_PTR], not restricted
    to any CPU count, and returns whether the answer is nonzero; when the
    converted mask has a bit outside the process affinity mask the kernel
    rejects it: the binder returns [false] and the kernel state is
    unchanged. *)
Theorem bind_bits_beyond_cpu_count :
  (forall (CPU_SETSIZE : Z) (k : Linux.kernel) (m : Z),
     Linux.well_formed k ->
     exists o o',
       exec Linux.kernel_step (Linux.moonbit_set_affinity_mask CPU_SETSIZE m) k
         = Some o /\
       exec Linux.kernel_step
            (Linux.moonbit_set_affinity_mask
               CPU_SETSIZE (Z.land m (Z.ones (Linux.ncpus k)))) k
         = Some o' /\
       value o = value o' /\ final o = final o') /\
  (forall (W : Type) (sys : Darwin.os W) (w : W) (m n : Z),
     Darwin.reports_arm64 sys w = true ->
     exec sys (Darwin.moonbit_set_affinity_mask (Z.land m (Z.ones n))) w =
     exec sys (Darwin.moonbit_set_affinity_mask m) w) /\
  (forall (W : Type)
          (sys : forall r : Fallback.request, W -> Fallback.response r * W)
          (w : W) (m n : Z),
     exec sys (Fallback.moonbit_set_affinity_mask (Z.land m (Z.ones n))) w =
     exec sys (Fallback.moonbit_set_affinity_mask m) w) /\
  (forall (W : Type) (sys : Darwin.os W) (w : W) (m n : Z),
     Darwin.reports_arm64 sys w = false ->
     is_uint64 m -> 0 <= n ->
     Z.land m (Z.ones n) <> 0 \/ m = 0 ->
     exec sys (Darwin.moonbit_set_affinity_mask (Z.land m (Z.ones n))) w =
     exec sys (Darwin.moonbit_set_affinity_mask m) w) /\
  (forall (W : Type) (sys : Darwin.os W) (w : W) (m n : Z),
     Darwin.reports_arm64 sys w = false ->
     is_uint64 m -> m <> 0 -> Z.land m (Z.ones n) = 0 ->
     exists o o',
       exec sys (Darwin.moonbit_set_affinity_mask m) w = Some o /\
       exec sys (Darwin.moonbit_set_affinity_mask (Z.land m (Z.ones n))) w
         = Some o' /\
       value o = true /\ value o' = false) /\
  (forall (W : Type) (sys : Win32.os W) (w : W) (DWORD_PTR_BITS m : Z),
     let (h, w1) := sys Win32.GetCurrentThread w in
     let (previous, w2) :=
       sys (Win32.SetThreadAffinityMask
              h (Win32.to_DWORD_PTR DWORD_PTR_BITS m)) w1 in
     exec sys (Win32.moonbit_set_affinity_mask DWORD_PTR_BITS m) w =
     Some (Outcome (negb (previous =? 0)) w2
             [Win32.GetCurrentThread;
              Win32.SetThreadAffinityMask
                h (Win32.to_DWORD_PTR DWORD_PTR_BITS m)])) /\
  (forall (DWORD_PTR_BITS : Z) (k : Win32.kernel) (m : Z),
     Z.land (Win32.to_DWORD_PTR DWORD_PTR_BITS m) (Win32.process_mask k)
       <> Win32.to_DWORD_PTR DWORD_PTR_BITS m ->
     exec Win32.kernel_step (Win32.moonbit_set_affinity_mask DWORD_PTR_BITS m) k =
     Some (Outcome false k
             [Win32.GetCurrentThread;
              Win32.SetThreadAffinityMask
                Win32.current_thread (Win32.to_DWORD_PTR DWORD_PTR_BITS m)])).
Proof.
  split; [ | split; [ | split; [ | split; [ | split; [ | split ] ] ] ] ].
  - intros CPU_SETSIZE k m Hwf.
    rewrite !linux_set_kernel. cbv zeta.
    rewrite (linux_effective_set CPU_SETSIZE k m Hwf).
    do 2 eexists. repeat split.
  - intros W sys w m n Harm. now rewrite !darwin_set_exec_arm.
  - intros W sys w m n. reflexivity.
  - intros W sys w m n Hintel Hm Hn Hlow.
    rewrite !darwin_set_exec_intel by assumption.
    now rewrite first_core_loop_low_bits.
  - intros W sys w m n Hintel Hm Hnz Hnone.
    destruct (darwin_set_value_intel sys w m Hintel Hm) as (o & Ho & Hv & _).
    assert (Hzero : is_uint64 0) by (unfold is_uint64, UINT64_MAX; lia).
    destruct (darwin_set_value_intel sys w 0 Hintel Hzero) as (o' & Ho' & Hv' & _).
    exists o, o'. rewrite Hnone. repeat split; auto.
    rewrite Hv. destruct (Z.eqb_spec m 0); [ contradiction | reflexivity ].
  - intros W sys w DWORD_PTR_BITS m.
    unfold Win32.moonbit_set_affinity_mask. cbn [bind call exec].
    destruct (sys Win32.GetCurrentThread w) as [h w1].
    destruct (sys (Win32.SetThreadAffinityMask h _) w1) as [previous w2].
    reflexivity.
  - intros DWORD_PTR_BITS k m Hout.
    rewrite win32_set_kernel. cbv zeta.
    destruct (Z.eqb_spec (Z.land (Win32.to_DWORD_PTR DWORD_PTR_BITS m)
                                 (Win32.process_mask k))
                         (Win32.to_DWORD_PTR DWORD_PTR_BITS m));
      [ contradiction | ].
    rewrite andb_false_r. reflexivity.
Qed.

Lemma bind_bits_beyond_cpu_count_witness :
  (exists o o',
     exec Linux.kernel_step (Linux.moonbit_set_affinity_mask 1024 19)
          (Linux.Kernel 4 15 15) = Some o /\
     exec Linux.kernel_step
          (Linux.moonbit_set_affinity_mask 1024 (Z.land 19 (Z.ones 4)))
          (Linux.Kernel 4 15 15) = Some o' /\
     value o = value o' /\ final o = final o') /\
  exec Darwin.kernel_step (Darwin.moonbit_set_affinity_mask (Z.land 19 (Z.ones 4)))
       (Darwin.Kernel 4 (Some 1) 0) =
  exec Darwin.kernel_step (Darwin.moonbit_set_affinity_mask 19)
       (Darwin.Kernel 4 (Some 1) 0) /\
  exec Darwin.kernel_step (Darwin.moonbit_set_affinity_mask (Z.land 18 (Z.ones 4)))
       (Darwin.Kernel 4 None 0) =
  exec Darwin.kernel_step (Darwin.moonbit_set_affinity_mask 18)
       (Darwin.Kernel 4 None 0) /\
  (exists o o',
     exec Darwin.kernel_step (Darwin.moonbit_set_affinity_mask 16)
          (Darwin.Kernel 4 None 0) = Some o /\
     exec Darwin.kernel_step (Darwin.moonbit_set_affinity_mask (Z.land 16 (Z.ones 4)))
          (Darwin.Kernel 4 None 0) = Some o' /\
     value o = true /\ value o' = false) /\
  exec Win32.kernel_step (Win32.moonbit_set_affinity_mask 32 (2 ^ 32 + 17))
       (Win32.Kernel 15 15 15) =
  Some (Outcome false (Win32.Kernel 15 15 15)
          [Win32.GetCurrentThread; Win32.SetThreadAffinityMask (-2) 17]).
Proof.
  destruct bind_bits_beyond_cpu_count
    as (Hlinux & Harm & _ & Hintel & Hhigh & _ & Hwin).
  split; [ | split; [ | split; [ | split ] ] ].
  - apply (Hlinux 1024 (Linux.Kernel 4 15 15) 19).
    unfold Linux.well_formed. simpl. lia.
  - apply (Harm _ Darwin.kernel_step (Darwin.Kernel 4 (Some 1) 0) 19 4).
    reflexivity.
  - apply (Hintel _ Darwin.kernel_step (Darwin.Kernel 4 None 0) 18 4).
    + reflexivity.
    + unfold is_uint64, UINT64_MAX. lia.
    + lia.
    + left. simpl. discriminate.
  - apply (Hhigh _ Darwin.kernel_step (Darwin.Kernel 4 None 0) 16 4).
    + reflexivity.
    + unfold is_uint64, UINT64_MAX. lia.
    + discriminate.
    + reflexivity.
  - apply (Hwin 32 (Win32.Kernel 15 15 15) (2 ^ 32 + 17)). simpl. discriminate.
Defined.

(** C8, as stated, fails on Windows: with four CPUs, all of them open to the
    process, binding to CPUs 0 and 1 succeeds and the query that follows
    still returns the process mask [0b1111], which is not a subset of
    [0b0011]. *)
Lemma bind_then_query_counterexample :
  exec Win32.kernel_step
       (both (Win32.moonbit_set_affinity_mask 64 3) Win32.moonbit_get_affinity_mask)
       (Win32.Kernel 15 15 15) =
    Some (Outcome (true, 15) (Win32.Kernel 15 15 3)
            [Win32.GetCurrentThread; Win32.SetThreadAffinityMask (-2) 3;
             Win32.GetCurrentProcess; Win32.GetProcessAffinityMask (-1)]) /\
  ~ mask_subset 15 (Z.land 3 (Z.ones 4)).
Proof. split; [ reflexivity | unfold mask_subset; simpl; discriminate ]. Qed.

(** C8, amended.  On Linux, for every mask with at least one bit naming a CPU
    available to the calling thread, the binder returns [true] and the query
    that follows returns a subset of the mask restricted to the CPUs that
    exist.  On Windows the query that follows a bind returns the process
    affinity mask, which the bind leaves as it was. *)
Theorem bind_then_query :
  (forall (CPU_SETSIZE : Z) (k : Linux.kernel) (m : Z),
     Linux.well_formed k -> is_uint64 m -> 64 <= CPU_SETSIZE ->
     Z.land m (Linux.cpus_allowed k) <> 0 ->
     exists o,
       exec Linux.kernel_step
            (both (Linux.moonbit_set_affinity_mask CPU_SETSIZE m)
                  (Linux.moonbit_get_affinity_mask CPU_SETSIZE)) k = Some o /\
       fst (value o) = true /\
       mask_subset (snd (value o)) (Z.land m (Z.ones (Linux.ncpus k)))) /\
  (forall (DWORD_PTR_BITS : Z) (k : Win32.kernel) (m : Z),
     exists o,
       exec Win32.kernel_step
            (both (Win32.moonbit_set_affinity_mask DWORD_PTR_BITS m)
                  Win32.moonbit_get_affinity_mask) k = Some o /\
       snd (value o) = to_uint64 (Win32.process_mask k) /\
       Win32.process_mask (final o) = Win32.process_mask k).
Proof.
  split.
  - intros CPU_SETSIZE k m Hwf Hm Hss Hmeet.
    assert (Hreq : Z.land m (Z.ones (Z.max 0 (Z.min 64 CPU_SETSIZE))) = m).
    { replace (Z.max 0 (Z.min 64 CPU_SETSIZE)) with 64 by lia.
      rewrite <- UINT64_MAX_ones. now apply to_uint64_small. }
    eexists. split; [ | split ].
    + eapply exec_both; [ rewrite linux_set_kernel | rewrite linux_get_kernel ];
        reflexivity.
    + cbn [value fst]. rewrite Hreq.
      destruct (Z.eqb_spec (Z.land m (Linux.cpus_allowed k)) 0);
        [ contradiction | reflexivity ].
    + cbn [value final snd]. rewrite Hreq.
      destruct (Z.eqb_spec (Z.land m (Linux.cpus_allowed k)) 0);
        [ contradiction | ].
      cbn [Linux.ncpus Linux.cpus_mask]. unfold mask_subset.
      destruct (Linux.ncpus k <=? 8 * Linux.sizeof_cpu_set_t CPU_SETSIZE);
        [ | reflexivity ].
      destruct Hwf as [Hn Hallowed].
      apply Z.bits_inj. intros j. rewrite !Z.land_spec.
      destruct (Z.testbit (Linux.cpus_allowed k) j) eqn:Hj.
      * apply (testbit_bounded _ _ _ Hn Hallowed) in Hj.
        rewrite (testbit_ones (Linux.ncpus k)) by lia.
        destruct (Z.testbit m j), (Z.testbit (Z.ones _) j);
          split_comparisons; first [ reflexivity | lia ].
      * now rewrite !andb_false_r.
  - intros DWORD_PTR_BITS k m. eexists. split; [ | split ].
    + eapply exec_both; [ rewrite win32_set_kernel | rewrite win32_get_kernel ];
        reflexivity.
    + cbn [value final snd].
      destruct (negb _ && (_ =? _)); reflexivity.
    + cbn [final].
      destruct (negb _ && (_ =? _)); reflexivity.
Qed.

Lemma bind_then_query_witness :
  exists o,
    exec Linux.kernel_step
         (both (Linux.moonbit_set_affinity_mask 1024 3)
               (Linux.moonbit_get_affinity_mask 1024))
         (Linux.Kernel 4 15 15) = Some o /\
    fst (value o) = true /\
    mask_subset (snd (value o)) (Z.land 3 (Z.ones 4)).
Proof.
  destruct bind_then_query as (Hlinux & _).
  apply (Hlinux 1024 (Linux.Kernel 4 15 15) 3).
  - unfold Linux.well_formed. simpl. lia.
  - unfold is_uint64, UINT64_MAX. lia.
  - lia.
  - simpl. discriminate.
Defined.

(** * Further properties of the backends *)

(** ** Ranges *)

Lemma to_uint64_range (x : Z) : is_uint64 (to_uint64 x).
Proof.
  unfold is_uint64, to_uint64. rewrite UINT64_MAX_ones, Z.land_ones by lia.
  pose proof (Z.mod_pos_bound x (2 ^ 64) ltac:(lia)) as Hb.
  change (Z.ones 64) with (2 ^ 64 - 1). lia.
Qed.

Lemma land_low_bits_range (x n : Z) :
  0 <= n <= 64 -> is_uint64 (Z.land x (Z.ones n)).
Proof.
  intros Hn. unfold is_uint64. rewrite Z.land_ones by lia.
  pose proof (Z.mod_pos_bound x (2 ^ n) ltac:(apply Z.pow_pos_nonneg; lia)) as Hb.
  assert (2 ^ n <= 2 ^ 64) by (apply Z.pow_le_mono_r; lia).
  change (2 ^ 64) with 18446744073709551616 in *. unfold UINT64_MAX. lia.
Qed.

Lemma land_uint64_ones (m : Z) : is_uint64 m -> Z.land m (Z.ones 64) = m.
Proof. intros Hm. rewrite <- UINT64_MAX_ones. now apply to_uint64_small. Qed.

(** ** The macOS query *)

Lemma darwin_get_exec {W : Type} (sys : Darwin.os W) (w w' : W) (rc c : Z) :
  sys (Darwin.sysctlbyname "hw.logicalcpu" Darwin.sizeof_int) w = ((rc, c), w') ->
  (rc = 0 -> 0 <= c) ->
  exec sys Darwin.moonbit_get_affinity_mask w =
  Some (Outcome (if rc =? 0 then Z.ones (Z.min c 64) else 0) w'
          [Darwin.sysctlbyname "hw.logicalcpu" Darwin.sizeof_int]).
Proof.
  intros Hsys Hc. unfold Darwin.moonbit_get_affinity_mask.
  cbn [bind call exec]. rewrite Hsys.
  destruct (Z.eqb_spec rc 0) as [Hrc | Hrc]; [ | reflexivity ].
  specialize (Hc Hrc). rewrite Z.geb_leb.
  destruct (Z.leb_spec 64 c) as [Hge | Hlt].
  - rewrite Z.min_r by lia. reflexivity.
  - rewrite Z.min_l by lia. unfold shl_u64.
    destruct (Z.leb_spec 0 c); [ | lia ].
    destruct (Z.ltb_spec c 64); [ | lia ].
    cbn [andb bind exec value final trace].
    rewrite Z.shiftl_1_l.
    assert (Hpow : 0 < 2 ^ c < 2 ^ 64).
    { split; [ apply Z.pow_pos_nonneg; lia | apply Z.pow_lt_mono_r; lia ]. }
    change (2 ^ 64) with 18446744073709551616 in Hpow.
    rewrite (to_uint64_small (2 ^ c)) by (unfold is_uint64, UINT64_MAX; lia).
    rewrite to_uint64_small by (unfold is_uint64, UINT64_MAX; lia).
    rewrite Z.ones_equiv. unfold Z.pred. reflexivity.
Qed.

(** X1. When the CPU-count query succeeds with a count [c >= 0], bit [i] of the
    macOS query's result is set exactly when [0 <= i < min c 64]: the result
    is a run of low bits, it fits 64 bits, and it is 0 exactly when the
    count is 0. *)
Theorem macos_query_low_run {W : Type} (sys : Darwin.os W) (w w' : W) (c : Z) :
  sys (Darwin.sysctlbyname "hw.logicalcpu" Darwin.sizeof_int) w = ((0, c), w') ->
  0 <= c ->
  exists o,
    exec sys Darwin.moonbit_get_affinity_mask w = Some o /\
    (forall i, Z.testbit (value o) i = (0 <=? i) && (i <? Z.min c 64)) /\
    is_uint64 (value o) /\
    (value o = 0 <-> c = 0).
Proof.
  intros Hsys Hc.
  rewrite (darwin_get_exec sys w w' 0 c Hsys) by (intros; exact Hc).
  eexists. split; [ reflexivity | ]. cbn [value Z.eqb].
  split; [ | split ].
  - intros i. apply testbit_ones. lia.
  - rewrite <- (Z.land_m1_l (Z.ones (Z.min c 64))).
    apply land_low_bits_range. lia.
  - split.
    + intros Hz.
      destruct (Z.eq_dec c 0) as [ | Hnz]; [ assumption | exfalso ].
      assert (Hb : Z.testbit (Z.ones (Z.min c 64)) 0 = true)
        by (rewrite testbit_ones by lia; destruct (Z.ltb_spec 0 (Z.min c 64)); [ reflexivity | lia ]).
      rewrite Hz in Hb. discriminate.
    + intros ->. reflexivity.
Qed.

Lemma macos_query_low_run_witness :
  exists o,
    exec Darwin.kernel_step Darwin.moonbit_get_affinity_mask
         (Darwin.Kernel 128 None 0) = Some o /\
    (forall i, Z.testbit (value o) i = (0 <=? i) && (i <? Z.min 128 64)) /\
    is_uint64 (value o) /\
    (value o = 0 <-> 128 = 0).
Proof.
  apply (macos_query_low_run Darwin.kernel_step
           (Darwin.Kernel 128 None 0) (Darwin.Kernel 128 None 0) 128).
  - reflexivity.
  - lia.
Defined.

(** ** The macOS binder *)

(** The scan of a mask whose lowest set bit is [j] runs the loop body for
    [j]. *)
Lemma first_core_loop_at_lowest (mask j : Z) :
  0 <= j < 64 -> Z.testbit mask j = true ->
  (forall l, 0 <= l < j -> Z.testbit mask l = false) ->
  Darwin.first_core_loop LOOP_BUDGET 0 mask =
  (self <- call Darwin.pthread_self ;;
   mach_thread <- call (Darwin.pthread_mach_thread_np self) ;;
   result <- call (Darwin.thread_policy_set
                     mach_thread Darwin.THREAD_AFFINITY_POLICY [j]
                     Darwin.THREAD_AFFINITY_POLICY_COUNT) ;;
   Ret true)%prog.
Proof.
  intros Hj Hset Hlow.
  destruct (first_core_loop_cases LOOP_BUDGET 0 mask)
    as [(j' & Hj' & Hset' & Hlow' & ->) | [Hclear _]];
    [ lia | unfold LOOP_BUDGET; lia | | ].
  - assert (j' = j).
    { destruct (Z.lt_trichotomy j' j) as [Hlt | [Heq | Hgt]]; [ | exact Heq | ].
      - rewrite Hlow in Hset' by lia. discriminate.
      - rewrite Hlow' in Hset by lia. discriminate. }
    subst j'. reflexivity.
  - rewrite Hclear in Hset by lia. discriminate.
Qed.

(** X2. The macOS binder uses nothing of a mask but its lowest set bit: for
    every operating system, a mask whose lowest set bit is [j] is treated
    exactly as the single-CPU mask [2^j] (same result, same calls, same final
    state). *)
Theorem macos_bind_lowest_bit_only {W : Type} (sys : Darwin.os W) (w : W)
  (mask j : Z) :
  0 <= j < 64 -> Z.testbit mask j = true ->
  (forall l, 0 <= l < j -> Z.testbit mask l = false) ->
  exec sys (Darwin.moonbit_set_affinity_mask mask) w =
  exec sys (Darwin.moonbit_set_affinity_mask (2 ^ j)) w.
Proof.
  intros Hj Hset Hlow.
  assert (Hpow : Darwin.first_core_loop LOOP_BUDGET 0 (2 ^ j) =
                 Darwin.first_core_loop LOOP_BUDGET 0 mask).
  { rewrite (first_core_loop_at_lowest mask j Hj Hset Hlow).
    apply first_core_loop_at_lowest; [ exact Hj | | ].
    - apply Z.pow2_bits_true. lia.
    - intros l Hl. apply Z.pow2_bits_false. lia. }
  unfold Darwin.moonbit_set_affinity_mask. cbn [bind call exec].
  destruct (sys _ w) as [[rc v] w0].
  now rewrite Hpow.
Qed.

Lemma macos_bind_lowest_bit_only_witness :
  exec Darwin.kernel_step (Darwin.moonbit_set_affinity_mask 12)
       (Darwin.Kernel 8 None 0) =
  exec Darwin.kernel_step (Darwin.moonbit_set_affinity_mask (2 ^ 2))
       (Darwin.Kernel 8 None 0).
Proof.
  apply (macos_bind_lowest_bit_only Darwin.kernel_step (Darwin.Kernel 8 None 0) 12 2).
  - lia.
  - reflexivity.
  - intros l Hl. assert (Hc : l = 0 \/ l = 1) by lia.
    destruct Hc as [-> | ->]; reflexivity.
Defined.

(** X3. Feeding the macOS query's result to the binder.  On an Intel machine
    (reference kernel) with at least one logical CPU the queried mask has
    bit 0 set, so the binder requests affinity tag 0 for the calling thread
    and returns [true], whatever the CPU count is. *)
Theorem macos_query_then_bind (k : Darwin.kernel) :
  Darwin.arm64 k = false -> 1 <= Darwin.hw_logicalcpu k ->
  exec Darwin.kernel_step
       (bind Darwin.moonbit_get_affinity_mask Darwin.moonbit_set_affinity_mask) k =
  Some (Outcome true
          (Darwin.Kernel (Darwin.hw_logicalcpu k) (Darwin.hw_optional_arm64 k) 0)
          [Darwin.sysctlbyname "hw.logicalcpu" Darwin.sizeof_int;
           Darwin.sysctlbyname "hw.optional.arm64" Darwin.sizeof_int;
           Darwin.pthread_self;
           Darwin.pthread_mach_thread_np Darwin.self_pthread;
           Darwin.thread_policy_set Darwin.self_port Darwin.THREAD_AFFINITY_POLICY
                                    [0] Darwin.THREAD_AFFINITY_POLICY_COUNT]).
Proof.
  intros Hintel Hc.
  rewrite exec_bind.
  rewrite (darwin_get_exec Darwin.kernel_step k k 0 (Darwin.hw_logicalcpu k))
    by (reflexivity || lia).
  cbn [value final trace Z.eqb].
  rewrite darwin_set_exec_intel
    by (rewrite darwin_kernel_reports_arm64; exact Hintel).
  rewrite darwin_kernel_sysctl_state.
  rewrite (first_core_loop_at_lowest _ 0);
    [ | lia
      | rewrite testbit_ones by lia;
        destruct (Z.ltb_spec 0 (Z.min (Darwin.hw_logicalcpu k) 64));
        [ reflexivity | lia ]
      | intros l Hl; lia ].
  cbn [bind call exec Darwin.kernel_step]. rewrite Hintel.
  reflexivity.
Qed.

Lemma macos_query_then_bind_witness :
  exec Darwin.kernel_step
       (bind Darwin.moonbit_get_affinity_mask Darwin.moonbit_set_affinity_mask)
       (Darwin.Kernel 8 None 5) =
  Some (Outcome true (Darwin.Kernel 8 None 0)
          [Darwin.sysctlbyname "hw.logicalcpu" 4;
           Darwin.sysctlbyname "hw.optional.arm64" 4;
           Darwin.pthread_self;
           Darwin.pthread_mach_thread_np 1;
           Darwin.thread_policy_set 259 4 [0] 1]).
Proof.
  apply (macos_query_then_bind (Darwin.Kernel 8 None 5)).
  - reflexivity.
  - simpl. lia.
Defined.

(** ** The Linux backend *)

(** X4. The Linux binder makes one call, [sched_setaffinity] for the calling
    thread with the size of a [cpu_set_t], and returns whether the answer is
    0.  The set it hands over holds CPU [i] exactly when bit [i] of the mask
    is set, [i < 64] and [i < CPU_SETSIZE]; for a 64-bit mask and
    [CPU_SETSIZE >= 64] it is the mask itself. *)
Theorem linux_bind_hands_mask_bits {W : Type} (CPU_SETSIZE : Z)
  (sys : Linux.os W) (w : W) (mask_val : Z) :
  exists set,
    (forall i, Z.testbit set i =
               (0 <=? i) && (i <? 64) && (i <? CPU_SETSIZE)
               && Z.testbit mask_val i) /\
    (is_uint64 mask_val -> 64 <= CPU_SETSIZE -> set = mask_val) /\
    let r := Linux.sched_setaffinity
               0 (Linux.sizeof_cpu_set_t CPU_SETSIZE) set in
    exec sys (Linux.moonbit_set_affinity_mask CPU_SETSIZE mask_val) w =
    Some (Outcome (fst (sys r w) =? 0) (snd (sys r w)) [r]).
Proof.
  exists (Z.land mask_val (Z.ones (Z.max 0 (Z.min 64 CPU_SETSIZE)))).
  split; [ | split ].
  - intros i. apply testbit_kept.
  - intros Hm Hss. replace (Z.max 0 (Z.min 64 CPU_SETSIZE)) with 64 by lia.
    now apply land_uint64_ones.
  - apply linux_set_exec.
Qed.

Lemma linux_bind_hands_mask_bits_witness :
  exists set,
    (forall i, Z.testbit set i =
               (0 <=? i) && (i <? 64) && (i <? 1024) && Z.testbit 5 i) /\
    (is_uint64 5 -> 64 <= 1024 -> set = 5) /\
    let r := Linux.sched_setaffinity 0 (Linux.sizeof_cpu_set_t 1024) set in
    exec Linux.kernel_step (Linux.moonbit_set_affinity_mask 1024 5)
         (Linux.Kernel 4 15 15) =
    Some (Outcome (fst (Linux.kernel_step r (Linux.Kernel 4 15 15)) =? 0)
            (snd (Linux.kernel_step r (Linux.Kernel 4 15 15))) [r]).
Proof.
  exact (linux_bind_hands_mask_bits 1024 Linux.kernel_step (Linux.Kernel 4 15 15) 5).
Defined.

(** X5. Round trip through [cpu_set_t].  For a 64-bit mask and
    [CPU_SETSIZE >= 64], the query applied to the very set the binder hands
    to [sched_setaffinity] gives the mask back. *)
Theorem linux_mask_round_trip {W : Type} (CPU_SETSIZE : Z) (sys : Linux.os W)
  (w1 w2 w2' : W) (mask_val set : Z) (o : outcome Linux.request bool W) :
  is_uint64 mask_val -> 64 <= CPU_SETSIZE ->
  exec sys (Linux.moonbit_set_affinity_mask CPU_SETSIZE mask_val) w1 = Some o ->
  trace o = [Linux.sched_setaffinity 0 (Linux.sizeof_cpu_set_t CPU_SETSIZE) set] ->
  sys (Linux.sched_getaffinity 0 (Linux.sizeof_cpu_set_t CPU_SETSIZE)) w2 =
    ((0, set), w2') ->
  exec sys (Linux.moonbit_get_affinity_mask CPU_SETSIZE) w2 =
  Some (Outcome mask_val w2'
          [Linux.sched_getaffinity 0 (Linux.sizeof_cpu_set_t CPU_SETSIZE)]).
Proof.
  intros Hm Hss Hexec Htrace Hget.
  rewrite linux_set_exec in Hexec. cbv zeta in Hexec.
  injection Hexec as <-. cbn [trace] in Htrace.
  injection Htrace as Hset.
  replace (Z.max 0 (Z.min 64 CPU_SETSIZE)) with 64 in Hset by lia.
  rewrite (land_uint64_ones _ Hm) in Hset. subst set.
  rewrite (linux_get_exec CPU_SETSIZE sys w2 w2' 0 mask_val Hget).
  cbn [Z.eqb].
  replace (Z.max 0 (Z.min 64 CPU_SETSIZE)) with 64 by lia.
  now rewrite (land_uint64_ones _ Hm).
Qed.

Lemma linux_mask_round_trip_witness :
  exec Linux.kernel_step (Linux.moonbit_get_affinity_mask 1024)
       (Linux.Kernel 4 15 5) =
  Some (Outcome 5 (Linux.Kernel 4 15 5) [Linux.sched_getaffinity 0 128]).
Proof.
  apply (linux_mask_round_trip 1024 Linux.kernel_step
           (Linux.Kernel 4 15 15) (Linux.Kernel 4 15 5) (Linux.Kernel 4 15 5) 5 5
           (Outcome true (Linux.Kernel 4 15 5) [Linux.sched_setaffinity 0 128 5])).
  - unfold is_uint64, UINT64_MAX. lia.
  - lia.
  - reflexivity.
  - reflexivity.
  - reflexivity.
Defined.

(** X6. The Linux query's result always fits 64 bits, whatever set the
    operating system stores.  It is 0 exactly when the call failed or the
    stored set holds no CPU with an index below 64 and below [CPU_SETSIZE]:
    a thread confined to CPUs 64 and above is reported like a failure. *)
Theorem linux_query_zero {W : Type} (CPU_SETSIZE : Z) (sys : Linux.os W)
  (w w' : W) (rc set : Z) :
  sys (Linux.sched_getaffinity 0 (Linux.sizeof_cpu_set_t CPU_SETSIZE)) w =
    ((rc, set), w') ->
  exists o,
    exec sys (Linux.moonbit_get_affinity_mask CPU_SETSIZE) w = Some o /\
    is_uint64 (value o) /\
    (value o = 0 <->
     rc <> 0 \/
     forall i, 0 <= i < 64 -> i < CPU_SETSIZE -> Z.testbit set i = false).
Proof.
  intros Hsys. rewrite (linux_get_exec CPU_SETSIZE sys w w' rc set Hsys).
  eexists. split; [ reflexivity | ]. cbn [value].
  destruct (Z.eqb_spec rc 0) as [Hrc | Hrc].
  - split; [ apply land_low_bits_range; lia | ].
    split.
    + intros Hz. right. intros i Hi Hss.
      assert (Hb : Z.testbit (Z.land set (Z.ones (Z.max 0 (Z.min 64 CPU_SETSIZE)))) i
                   = false) by (rewrite Hz; apply Z.bits_0).
      rewrite testbit_kept in Hb.
      destruct (Z.leb_spec 0 i), (Z.ltb_spec i 64), (Z.ltb_spec i CPU_SETSIZE);
        try lia. exact Hb.
    + intros [Hfail | Hnone]; [ contradiction | ].
      apply Z.bits_inj. intros i. rewrite testbit_kept, Z.bits_0.
      destruct (Z.leb_spec 0 i), (Z.ltb_spec i 64), (Z.ltb_spec i CPU_SETSIZE);
        try reflexivity.
      cbn [andb]. apply Hnone; lia.
  - split; [ unfold is_uint64, UINT64_MAX; lia | ].
    split; [ intros _; left; exact Hrc | reflexivity ].
Qed.

Lemma linux_query_zero_witness :
  exists o,
    exec Linux.kernel_step (Linux.moonbit_get_affinity_mask 1024)
         (Linux.Kernel 128 (2 ^ 128 - 1) (2 ^ 64)) = Some o /\
    is_uint64 (value o) /\
    (value o = 0 <->
     0 <> 0 \/
     forall i, 0 <= i < 64 -> i < 1024 -> Z.testbit (2 ^ 64) i = false).
Proof.
  apply (linux_query_zero 1024 Linux.kernel_step
           (Linux.Kernel 128 (2 ^ 128 - 1) (2 ^ 64))
           (Linux.Kernel 128 (2 ^ 128 - 1) (2 ^ 64)) 0 (2 ^ 64)).
  reflexivity.
Defined.

(** A 64-bit mask meets only CPUs below 64. *)
Lemma land_uint64_low (m a : Z) :
  is_uint64 m -> Z.land (Z.land m a) (Z.ones 64) = Z.land m a.
Proof.
  intros Hm. apply Z.bits_inj. intros j. rewrite !Z.land_spec.
  destruct (Z.testbit m j) eqn:Hj; [ | reflexivity ].
  apply (testbit_uint64 _ _ Hm) in Hj.
  rewrite testbit_ones by lia.
  destruct (Z.leb_spec 0 j), (Z.ltb_spec j 64); try lia.
  now rewrite andb_true_r.
Qed.

(** X7. Bind, then query, on Linux (reference kernel), for a 64-bit mask,
    [CPU_SETSIZE >= 64] and a [cpu_set_t] that is long enough for the
    kernel.  When the mask names a CPU available to the thread the bind
    returns [true] and the query returns exactly the mask's available CPUs.
    When it names none the bind returns [false], the thread's affinity stays
    as it was and the query reports the CPUs below 64 of that affinity. *)
Theorem linux_bind_then_query_exact (CPU_SETSIZE : Z) (k : Linux.kernel) (m : Z) :
  is_uint64 m -> 64 <= CPU_SETSIZE ->
  Linux.ncpus k <= 8 * Linux.sizeof_cpu_set_t CPU_SETSIZE ->
  exec Linux.kernel_step
       (both (Linux.moonbit_set_affinity_mask CPU_SETSIZE m)
             (Linux.moonbit_get_affinity_mask CPU_SETSIZE)) k =
  Some (if Z.land m (Linux.cpus_allowed k) =? 0
        then Outcome (false, Z.land (Linux.cpus_mask k) (Z.ones 64)) k
               [Linux.sched_setaffinity 0 (Linux.sizeof_cpu_set_t CPU_SETSIZE) m;
                Linux.sched_getaffinity 0 (Linux.sizeof_cpu_set_t CPU_SETSIZE)]
        else Outcome (true, Z.land m (Linux.cpus_allowed k))
               (Linux.Kernel (Linux.ncpus k) (Linux.cpus_allowed k)
                             (Z.land m (Linux.cpus_allowed k)))
               [Linux.sched_setaffinity 0 (Linux.sizeof_cpu_set_t CPU_SETSIZE) m;
                Linux.sched_getaffinity 0 (Linux.sizeof_cpu_set_t CPU_SETSIZE)]).
Proof.
  intros Hm Hss Hlen.
  erewrite exec_both;
    [ | rewrite linux_set_kernel; reflexivity
      | rewrite linux_get_kernel; reflexivity ].
  cbn [value final trace app].
  replace (Z.max 0 (Z.min 64 CPU_SETSIZE)) with 64 by lia.
  rewrite (land_uint64_ones _ Hm).
  destruct (Z.land m (Linux.cpus_allowed k) =? 0) eqn:Hnew; cbn [negb].
  - rewrite ?Hnew. destruct (Z.leb_spec (Linux.ncpus k)
                              (8 * Linux.sizeof_cpu_set_t CPU_SETSIZE));
      [ reflexivity | lia ].
  - rewrite ?Hnew. cbn [Linux.ncpus Linux.cpus_mask].
    destruct (Z.leb_spec (Linux.ncpus k)
                (8 * Linux.sizeof_cpu_set_t CPU_SETSIZE)); [ | lia ].
    now rewrite (land_uint64_low _ _ Hm).
Qed.

Lemma linux_bind_then_query_exact_witness :
  exec Linux.kernel_step
       (both (Linux.moonbit_set_affinity_mask 1024 24)
             (Linux.moonbit_get_affinity_mask 1024)) (Linux.Kernel 4 15 5) =
  Some (Outcome (true, 8) (Linux.Kernel 4 15 8)
          [Linux.sched_setaffinity 0 128 24; Linux.sched_getaffinity 0 128]).
Proof.
  apply (linux_bind_then_query_exact 1024 (Linux.Kernel 4 15 5) 24).
  - unfold is_uint64, UINT64_MAX. lia.
  - lia.
  - simpl. lia.
Defined.

(** X8. Query, then bind to the queried mask, on Linux (reference kernel).
    For a thread whose affinity is nonempty, lies within the CPUs available
    to it and within CPUs 0 to 63, the bind returns [true] and leaves the
    kernel state as it was. *)
Theorem linux_query_then_bind (CPU_SETSIZE : Z) (k : Linux.kernel) :
  64 <= CPU_SETSIZE ->
  Linux.ncpus k <= 8 * Linux.sizeof_cpu_set_t CPU_SETSIZE ->
  is_uint64 (Linux.cpus_mask k) -> Linux.cpus_mask k <> 0 ->
  mask_subset (Linux.cpus_mask k) (Linux.cpus_allowed k) ->
  exec Linux.kernel_step
       (bind (Linux.moonbit_get_affinity_mask CPU_SETSIZE)
             (Linux.moonbit_set_affinity_mask CPU_SETSIZE)) k =
  Some (Outcome true k
          [Linux.sched_getaffinity 0 (Linux.sizeof_cpu_set_t CPU_SETSIZE);
           Linux.sched_setaffinity 0 (Linux.sizeof_cpu_set_t CPU_SETSIZE)
                                   (Linux.cpus_mask k)]).
Proof.
  intros Hss Hlen Hmask Hnz Hsub. unfold mask_subset in Hsub.
  rewrite exec_bind, linux_get_kernel. cbn [value final trace].
  destruct (Z.leb_spec (Linux.ncpus k)
              (8 * Linux.sizeof_cpu_set_t CPU_SETSIZE)); [ | lia ].
  rewrite linux_set_kernel. cbv zeta. cbn [value final trace app].
  replace (Z.max 0 (Z.min 64 CPU_SETSIZE)) with 64 by lia.
  rewrite !(land_uint64_ones _ Hmask), Hsub.
  destruct (Z.eqb_spec (Linux.cpus_mask k) 0); [ contradiction | ].
  destruct k as [count allowed cur]. reflexivity.
Qed.

Lemma linux_query_then_bind_witness :
  exec Linux.kernel_step
       (bind (Linux.moonbit_get_affinity_mask 1024)
             (Linux.moonbit_set_affinity_mask 1024)) (Linux.Kernel 4 15 5) =
  Some (Outcome true (Linux.Kernel 4 15 5)
          [Linux.sched_getaffinity 0 128; Linux.sched_setaffinity 0 128 5]).
Proof.
  apply (linux_query_then_bind 1024 (Linux.Kernel 4 15 5)).
  - lia.
  - simpl. lia.
  - unfold is_uint64, UINT64_MAX. simpl. lia.
  - simpl. discriminate.
  - reflexivity.
Defined.

(** ** The Windows backend *)

(** X9. The Windows query asks for the pseudo handle of the process and then
    for its affinity mask.  Its result fits 64 bits and does not depend on
    the system mask; it is the process mask (when that fits 64 bits) if the
    call succeeded, and it is 0 exactly when the call failed or the process
    mask has no bit below 64. *)
Theorem win32_query_result {W : Type} (sys : Win32.os W) (w w1 w2 : W)
  (h ok process_affinity_mask system_affinity_mask : Z) :
  sys Win32.GetCurrentProcess w = (h, w1) ->
  sys (Win32.GetProcessAffinityMask h) w1 =
    ((ok, process_affinity_mask, system_affinity_mask), w2) ->
  exists o,
    exec sys Win32.moonbit_get_affinity_mask w = Some o /\
    final o = w2 /\
    trace o = [Win32.GetCurrentProcess; Win32.GetProcessAffinityMask h] /\
    is_uint64 (value o) /\
    (ok <> 0 -> is_uint64 process_affinity_mask ->
     value o = process_affinity_mask) /\
    (value o = 0 <-> ok = 0 \/ Z.land process_affinity_mask (Z.ones 64) = 0).
Proof.
  intros Hh Hmask. unfold Win32.moonbit_get_affinity_mask.
  cbn [bind call exec]. rewrite Hh, Hmask.
  destruct (Z.eqb_spec ok 0) as [Hok | Hok]; cbn [negb exec];
    eexists; (split; [ reflexivity | ]); cbn [value final trace];
    repeat split; try (intros; contradiction).
  - unfold UINT64_MAX. lia.
  - unfold UINT64_MAX. lia.
  - intros _. left. exact Hok.
  - apply to_uint64_range.
  - apply to_uint64_range.
  - intros _ Hm. now apply to_uint64_small.
  - intros Hz. right. exact Hz.
  - intros [ | Hz]; [ contradiction | exact Hz ].
Qed.

Lemma win32_query_result_witness :
  exists o,
    exec Win32.kernel_step Win32.moonbit_get_affinity_mask
         (Win32.Kernel 15 7 1) = Some o /\
    final o = Win32.Kernel 15 7 1 /\
    trace o = [Win32.GetCurrentProcess; Win32.GetProcessAffinityMask (-1)] /\
    is_uint64 (value o) /\
    (1 <> 0 -> is_uint64 7 -> value o = 7) /\
    (value o = 0 <-> 1 = 0 \/ Z.land 7 (Z.ones 64) = 0).
Proof.
  apply (win32_query_result Win32.kernel_step (Win32.Kernel 15 7 1)
           (Win32.Kernel 15 7 1) (Win32.Kernel 15 7 1) (-1) 1 7 15);
    reflexivity.
Defined.

(** X10. The Windows binder asks for the pseudo handle of the thread and
    hands [SetThreadAffinityMask] the mask reduced modulo [2^DWORD_PTR_BITS];
    it returns whether the answer is nonzero.  Two masks that agree modulo
    [2^DWORD_PTR_BITS] are therefore treated alike: where [DWORD_PTR] has 32
    bits, bits 32 to 63 of the mask are dropped. *)
Theorem win32_bind_truncates {W : Type} (DWORD_PTR_BITS : Z) (sys : Win32.os W)
  (w w1 w2 : W) (h previous mask : Z) :
  0 <= DWORD_PTR_BITS ->
  sys Win32.GetCurrentThread w = (h, w1) ->
  sys (Win32.SetThreadAffinityMask h (mask mod 2 ^ DWORD_PTR_BITS)) w1 =
    (previous, w2) ->
  exec sys (Win32.moonbit_set_affinity_mask DWORD_PTR_BITS mask) w =
    Some (Outcome (negb (previous =? 0)) w2
            [Win32.GetCurrentThread;
             Win32.SetThreadAffinityMask h (mask mod 2 ^ DWORD_PTR_BITS)]) /\
  (forall mask',
     mask' mod 2 ^ DWORD_PTR_BITS = mask mod 2 ^ DWORD_PTR_BITS ->
     exec sys (Win32.moonbit_set_affinity_mask DWORD_PTR_BITS mask') w =
     exec sys (Win32.moonbit_set_affinity_mask DWORD_PTR_BITS mask) w).
Proof.
  intros Hbits Hh Hset. split.
  - unfold Win32.moonbit_set_affinity_mask, Win32.to_DWORD_PTR.
    cbn [bind call exec]. rewrite Z.land_ones by lia.
    rewrite Hh, Hset. reflexivity.
  - intros mask' Hsame.
    unfold Win32.moonbit_set_affinity_mask, Win32.to_DWORD_PTR.
    rewrite !Z.land_ones by lia. now rewrite Hsame.
Qed.

Lemma win32_bind_truncates_witness :
  exec Win32.kernel_step (Win32.moonbit_set_affinity_mask 32 (2 ^ 32 + 1))
       (Win32.Kernel 15 15 15) =
    Some (Outcome true (Win32.Kernel 15 15 1)
            [Win32.GetCurrentThread; Win32.SetThreadAffinityMask (-2) 1]) /\
  (forall mask',
     mask' mod 2 ^ 32 = (2 ^ 32 + 1) mod 2 ^ 32 ->
     exec Win32.kernel_step (Win32.moonbit_set_affinity_mask 32 mask')
          (Win32.Kernel 15 15 15) =
     exec Win32.kernel_step (Win32.moonbit_set_affinity_mask 32 (2 ^ 32 + 1))
          (Win32.Kernel 15 15 15)).
Proof.
  apply (win32_bind_truncates 32 Win32.kernel_step (Win32.Kernel 15 15 15)
           (Win32.Kernel 15 15 15) (Win32.Kernel 15 15 1) (-2) 15 (2 ^ 32 + 1)).
  - lia.
  - reflexivity.
  - reflexivity.
Defined.

(** X11. Query, then bind to the queried mask, on Windows (reference
    kernel).  For a nonempty process mask that fits [DWORD_PTR] the bind
    returns [true] and the thread's affinity becomes the whole process mask,
    whatever it was before. *)
Theorem win32_query_then_bind (DWORD_PTR_BITS : Z) (k : Win32.kernel) :
  0 <= DWORD_PTR_BITS <= 64 ->
  0 < Win32.process_mask k < 2 ^ DWORD_PTR_BITS ->
  Win32.well_formed k ->
  exec Win32.kernel_step
       (bind Win32.moonbit_get_affinity_mask
             (Win32.moonbit_set_affinity_mask DWORD_PTR_BITS)) k =
  Some (Outcome true
          (Win32.Kernel (Win32.system_mask k) (Win32.process_mask k)
                        (Win32.process_mask k))
          [Win32.GetCurrentProcess;
           Win32.GetProcessAffinityMask Win32.current_process;
           Win32.GetCurrentThread;
           Win32.SetThreadAffinityMask Win32.current_thread
                                       (Win32.process_mask k)]).
Proof.
  intros Hbits Hmask Hwf. unfold Win32.well_formed in Hwf.
  assert (Hpow : 2 ^ DWORD_PTR_BITS <= 2 ^ 64) by (apply Z.pow_le_mono_r; lia).
  change (2 ^ 64) with 18446744073709551616 in Hpow.
  rewrite exec_bind, win32_get_kernel. cbn [value final trace].
  rewrite to_uint64_small by (unfold is_uint64, UINT64_MAX; lia).
  rewrite win32_set_kernel. cbv zeta. cbn [value final trace app].
  assert (Hfit : Win32.to_DWORD_PTR DWORD_PTR_BITS (Win32.process_mask k) =
                 Win32.process_mask k).
  { unfold Win32.to_DWORD_PTR. rewrite Z.land_ones by lia.
    apply Z.mod_small. lia. }
  rewrite Hfit, Z.land_diag, Z.eqb_refl.
  destruct (Z.eqb_spec (Win32.process_mask k) 0); [ lia | ].
  destruct (Z.eqb_spec (Win32.thread_mask k) 0); [ contradiction | ].
  reflexivity.
Qed.

Lemma win32_query_then_bind_witness :
  exec Win32.kernel_step
       (bind Win32.moonbit_get_affinity_mask (Win32.moonbit_set_affinity_mask 64))
       (Win32.Kernel 15 7 1) =
  Some (Outcome true (Win32.Kernel 15 7 7)
          [Win32.GetCurrentProcess; Win32.GetProcessAffinityMask (-1);
           Win32.GetCurrentThread; Win32.SetThreadAffinityMask (-2) 7]).
Proof.
  apply (win32_query_then_bind 64 (Win32.Kernel 15 7 1)).
  - lia.
  - simpl. lia.
  - unfold Win32.well_formed. simpl. discriminate.
Defined.
